(** * Audubon_F21: detection dataset adapter, optimizer factory, configuration

    A shallow embedding of
      - [src/data/dataloader.py]  ([ObjectDetectionDataset], [od_collate_fn],
        [get_od_dataloader]),
      - [src/optimizers/sgd.py]   ([get_sgd_optim]),
      - [config.py]               (the module-level constants),
      - [utils/data_vis.py]       (the plotting routines, as far as their
        effect on the file system goes),
    and the properties the specification states about them.

    Python exceptions are values of [exn]; a call that may raise returns a
    [result].  Tensors carry their dtype and their dimension, float32 and
    float64 arithmetic is IEEE 754 arithmetic ([SpecFloat]), the target of
    an item is a dictionary from key to tensor, and the file system is a
    finite map from path to file. *)

From Stdlib Require Import ZArith Bool Floats.SpecFloat.
From stdpp Require Import gmap strings list.

(* ===================================================================== *)
(** * Python: exceptions, results, list indexing *)
(* ===================================================================== *)

Module Py.

Inductive exn :=
| IndexError (msg : string)
| KeyError (key : string)
| FileNotFoundError (path : string)
| UnidentifiedImageError (path : string)
| ParserError (path : string)
| ValueError (msg : string)
| TypeError (msg : string)
| RuntimeError (msg : string).

Inductive result (A : Type) :=
| Ok (a : A)
| Raise (e : exn).
Arguments Ok {A} a.
Arguments Raise {A} e.

Definition bind {A B} (m : result A) (k : A → result B) : result B :=
  match m with
  | Ok a => k a
  | Raise e => Raise e
  end.

#[export] Instance result_ret : MRet result := @Ok.
#[export] Instance result_bind : MBind result := λ A B k m, bind m k.
#[export] Instance result_fmap : FMap result :=
  λ A B f m, bind m (λ a, Ok (f a)).

Definition returns {A} (m : result A) : Prop := ∃ a, m = Ok a.
Definition raises {A} (m : result A) : Prop := ∃ e, m = Raise e.

(** [l[i]] for a list [l] and an integer [i]: an index from [-len(l)] to
    [-1] counts from the end, anything outside [-len(l) .. len(l)-1]
    raises IndexError. *)
Definition getitem {A} (l : list A) (i : Z) : result A :=
  let n := Z.of_nat (length l) in
  let j := if (i <? 0)%Z then (i + n)%Z else i in
  if ((j <? 0) || (n <=? j))%Z
  then Raise (IndexError "list index out of range")
  else match l !! Z.to_nat j with
       | Some x => Ok x
       | None => Raise (IndexError "list index out of range")
       end.

(** [i] is a valid index of [l]. *)
Definition in_range {A} (l : list A) (i : Z) : Prop :=
  (- Z.of_nat (length l) ≤ i < Z.of_nat (length l))%Z.

(** [len(l)] *)
Definition len {A} (l : list A) : Z := Z.of_nat (length l).

End Py.
Import Py.

(* ===================================================================== *)
(** * numpy and torch: scalars and tensors *)
(* ===================================================================== *)

Module Torch.

(** IEEE 754 binary32 and binary64 values. *)
Definition float32 := spec_float.
Definition float64 := spec_float.

Definition f32_sub : float32 → float32 → float32 := SFsub 24 128.
Definition f32_mul : float32 → float32 → float32 := SFmul 24 128.

(** A numeric cell of a data table: a numpy integer scalar (int64, or
    uint64 for a value from 2^63 on) or a float64 scalar. *)
Inductive num :=
| NpInt64 (z : Z)
| NpFloat64 (x : float64).

(** The binary64 nearest to an integer (ties to even). *)
Definition f64_of_Z (z : Z) : float64 := binary_normalize 53 1024 z 0 false.

(** The binary64 of the decimal literal [n/d], for [n] and [d] below
    2^53: the correctly rounded quotient. *)
Definition dec64 (n d : Z) : float64 :=
  SFdiv 53 1024 (f64_of_Z n) (f64_of_Z d).

Definition zero64 : float64 := S754_zero false.

(** [float(x)]: the cell as a Python float (a binary64). *)
Definition to_f64 (x : num) : float64 :=
  match x with
  | NpInt64 z => f64_of_Z z
  | NpFloat64 d => d
  end.

(** binary64 to binary32, round to nearest even. *)
Definition f64_to_f32 (d : float64) : float32 :=
  match d with
  | S754_finite s m e => binary_round 24 128 s m e
  | _ => d
  end.

(** The float32 element stored for a cell by
    [torch.as_tensor(_, dtype=torch.float32)]. *)
Definition to_f32 (x : num) : float32 := f64_to_f32 (to_f64 x).

Definition int64_min : Z := (- 2 ^ 63)%Z.
Definition int64_max : Z := (2 ^ 63 - 1)%Z.

(** binary64 to int64 as the C cast does it on x86-64: truncation
    towards zero, and the "integer indefinite" value [int64_min] for NaN,
    infinities and values out of range. *)
Definition f64_to_i64 (d : float64) : Z :=
  match d with
  | S754_zero _ => 0%Z
  | S754_finite s m e =>
      let a := if (0 <=? e)%Z then (Z.pos m * 2 ^ e)%Z
               else (Z.pos m / 2 ^ (- e))%Z in
      let v := if s then (- a)%Z else a in
      if ((int64_min <=? v) && (v <=? int64_max))%Z then v else int64_min
  | _ => int64_min
  end.

(** An integer as an int64: its 64 low bits, read as a signed number. *)
Definition wrap_int64 (z : Z) : Z :=
  ((z - int64_min) mod 2 ^ 64 + int64_min)%Z.

(** The int64 element stored for a cell by
    [torch.tensor(_, dtype=torch.int64)]: an integer wraps around, a
    float is cast. *)
Definition to_i64 (x : num) : Z :=
  match x with
  | NpInt64 z => wrap_int64 z
  | NpFloat64 d => f64_to_i64 d
  end.

(** The tensors the dataset builds: one-dimensional int64, one-dimensional
    float32 and two-dimensional float32 (a list of rows of equal
    length). *)
Inductive Tensor :=
| Int64_1d (v : list Z)
| Float32_1d (v : list float32)
| Float32_2d (m : list (list float32)).

Definition dim (t : Tensor) : nat :=
  match t with
  | Int64_1d _ | Float32_1d _ => 1
  | Float32_2d _ => 2
  end.

Definition shape (t : Tensor) : list nat :=
  match t with
  | Int64_1d v => [length v]
  | Float32_1d v => [length v]
  | Float32_2d m => [length m; length (default [] (head m))]
  end.

(** [torch.tensor(v, dtype=torch.int64)] on a flat list of integers. *)
Definition tensor_int64 (v : list Z) : Tensor := Int64_1d v.

(** [torch.tensor(a, dtype=torch.int64)] on the values of a column.  A
    column of a table without rows has the dtype object, nothing in the
    file telling its type, and an array of that dtype is refused with
    TypeError; a column with rows is numeric and is converted. *)
Definition tensor_int64_of_values (a : list num) : result Tensor :=
  match a with
  | [] => Raise (TypeError "can't convert np.ndarray of type numpy.object_")
  | _ => Ok (Int64_1d (map to_i64 a))
  end.

(** [torch.zeros((n,), dtype=torch.int64)] *)
Definition zeros_int64 (n : nat) : Tensor := Int64_1d (replicate n 0%Z).

(** [torch.as_tensor(boxes, dtype=torch.float32)] on a list of lists of
    numbers.  The empty list gives the one-dimensional tensor of shape
    [(0,)]; a non-empty list of rows of one length gives the matrix; rows
    of different lengths are refused. *)
Definition as_tensor_float32 (boxes : list (list num)) : result Tensor :=
  match boxes with
  | [] => Ok (Float32_1d [])
  | r :: _ =>
      if forallb (λ r', length r' =? length r) boxes
      then Ok (Float32_2d (map (map to_f32) boxes))
      else Raise (ValueError "expected sequence of equal length")
  end.

(** [t[:, k]]: column [k] of a two-dimensional tensor.  A tensor of
    dimension one has no second index. *)
Definition select_column (t : Tensor) (k : nat) : result Tensor :=
  match t with
  | Float32_2d m =>
      match mapM (λ r : list float32, r !! k) m with
      | Some c => Ok (Float32_1d c)
      | None => Raise (IndexError "index is out of bounds for dimension 1")
      end
  | _ => Raise (IndexError "too many indices for tensor of dimension 1")
  end.

(** Element-wise operation on two one-dimensional float32 tensors of one
    size, the only case the dataset meets (broadcasting is left out). *)
Definition pointwise (f : float32 → float32 → float32) (a b : Tensor)
  : result Tensor :=
  match a, b with
  | Float32_1d x, Float32_1d y =>
      if length x =? length y
      then Ok (Float32_1d (zip_with f x y))
      else Raise (RuntimeError "the size of tensor a must match the size of tensor b")
  | _, _ => Raise (RuntimeError "unsupported operand")
  end.

Definition sub : Tensor → Tensor → result Tensor := pointwise f32_sub.
Definition mul : Tensor → Tensor → result Tensor := pointwise f32_mul.

End Torch.
Import Torch.

(* ===================================================================== *)
(** * pandas: the annotation table *)
(* ===================================================================== *)

Module Pandas.

(** One row of a table: column label to value. *)
Abbreviation Series := (gmap string num).

(** An annotation table: its column labels (the header of the file,
    where a label stands once) and one record per bounding box, the cells
    of a line of the file in the order of the header. *)
Record DataFrame := {
  columns : list string;
  records : list (list num)
}.

(** The missing value. *)
Definition nan : num := NpFloat64 S754_nan.

(** The row of a record: every column label bound to the cell at its
    place, and to the missing value where the line is shorter than the
    header, as the reader fills it; a line has no more cells than the
    header (the reader refuses such a file). *)
Definition series (columns : list string) (record : list num) : Series :=
  list_to_map
    (zip columns
       (record ++ replicate (length columns - length record) nan)).

(** The rows of a table: each binds the labels of [columns] and no
    other. *)
Definition rows (df : DataFrame) : list Series :=
  map (series (columns df)) (records df).

(** [len(df)]: the number of rows. *)
Definition len (df : DataFrame) : nat := length (rows df).

(** [df[c].values]: the column labelled [c] as an array; KeyError when
    the table has no such column. *)
Definition column_values (df : DataFrame) (c : string)
  : result (list num) :=
  if decide (c ∈ columns df)
  then match mapM (λ r : Series, r !! c) (rows df) with
       | Some v => Ok v
       | None => Raise (KeyError c)
       end
  else Raise (KeyError c).

(** [df.iloc[i][c]]: the value of column [c] in the row at position
    [i]. *)
Definition iloc (df : DataFrame) (i : nat) (c : string) : result num :=
  match rows df !! i with
  | None => Raise (IndexError "single positional indexer is out-of-bounds")
  | Some r =>
      match r !! c with
      | Some x => Ok x
      | None => Raise (KeyError c)
      end
  end.

End Pandas.
Import Pandas.

(* ===================================================================== *)
(** * src/data/dataloader.py *)
(* ===================================================================== *)

(** The detection target of one image: a dictionary from key to tensor. *)
Abbreviation Target := (gmap string Tensor).

Section Dataloader.

(** The image objects of the imaging library, and its [convert('RGB')]. *)
Context {Image : Type}.
Variable convert_RGB : Image → Image.

(** A file is a decoded image, a parsed annotation table, or a chart
    saved as PDF (known by its title). *)
Inductive file :=
| JpegFile (img : Image)
| CsvFile (df : DataFrame)
| PdfFile (title : string).

(** The file system: path to file. *)
Abbreviation FS := (gmap string file).

(** [Image.open(path)] *)
Definition Image_open (fs : FS) (path : string) : result Image :=
  match fs !! path with
  | None => Raise (FileNotFoundError path)
  | Some (JpegFile img) => Ok img
  | Some (CsvFile _) | Some (PdfFile _) =>
      Raise (UnidentifiedImageError path)
  end.

(** Modelled from the spec: [csv_to_df] of [src/data/utils.py], which is
    not among the sources.  It reads the per-image CSV file into the
    annotation table, one row per bounding box; a missing file is an I/O
    error of the library, which nothing catches, and so is a file that
    is no table. *)
Definition csv_to_df (fs : FS) (path : string) : result DataFrame :=
  match fs !! path with
  | None => Raise (FileNotFoundError path)
  | Some (CsvFile df) => Ok df
  | Some (JpegFile _) | Some (PdfFile _) => Raise (ParserError path)
  end.

(** A transform takes the image and the target and gives back a pair, or
    raises. *)
Definition Transform := Image → Target → result (Image * Target).

Record ObjectDetectionDataset := {
  _jpg_paths : list string;
  _csv_paths : list string;
  _transform : option Transform;
  _bird_only : bool
}.

(** [ObjectDetectionDataset.__init__]: stores its four arguments. *)
Definition __init__ (jpg_paths csv_paths : list string)
    (transform : option Transform) (bird_only : bool)
  : ObjectDetectionDataset :=
  {| _jpg_paths := jpg_paths;
     _csv_paths := csv_paths;
     _transform := transform;
     _bird_only := bird_only |}.

(** The labels (lines 30-33). *)
Definition make_labels (bird_only : bool) (target_df : DataFrame)
    (num_objs : nat) : result Tensor :=
  if bird_only
  then Ok (tensor_int64 (replicate num_objs 1%Z))
  else values ← column_values target_df "class_id";
       tensor_int64_of_values values.

(** The loop over [range(num_objs)] that appends one box per row
    (lines 37-42); [boxes] is the list built so far. *)
Fixpoint append_boxes (target_df : DataFrame) (range : list nat)
    (boxes : list (list num)) : result (list (list num)) :=
  match range with
  | [] => Ok boxes
  | row_idx :: range' =>
      x_1 ← iloc target_df row_idx "xmin";
      y_1 ← iloc target_df row_idx "ymin";
      x_2 ← iloc target_df row_idx "xmax";
      y_2 ← iloc target_df row_idx "ymax";
      append_boxes target_df range' (boxes ++ [[x_1; y_1; x_2; y_2]])
  end.

(** The area (line 46):
    [(boxes[:, 3] - boxes[:, 1]) * (boxes[:, 2] - boxes[:, 0])]. *)
Definition compute_area (boxes : Tensor) : result Tensor :=
  c3 ← select_column boxes 3;
  c1 ← select_column boxes 1;
  h ← Torch.sub c3 c1;
  c2 ← select_column boxes 2;
  c0 ← select_column boxes 0;
  w ← Torch.sub c2 c0;
  Torch.mul h w.

(** The target built from the annotation table (lines 29-57). *)
Definition make_target (bird_only : bool) (idx : Z)
    (target_df : DataFrame) : result Target :=
  let num_objs := Pandas.len target_df in
  labels ← make_labels bird_only target_df num_objs;
  boxes ← append_boxes target_df (seq 0 num_objs) [];
  boxes ← as_tensor_float32 boxes;
  area ← compute_area boxes;
  let iscrowd := zeros_int64 num_objs in
  let target : Target := ∅ in
  let target := <["boxes" := boxes]> target in
  let target := <["labels" := labels]> target in
  let target := <["image_id" := tensor_int64 [idx]]> target in
  let target := <["area" := area]> target in
  let target := <["iscrowd" := iscrowd]> target in
  Ok target.

(** [ObjectDetectionDataset.__getitem__] *)
Definition __getitem__ (self : ObjectDetectionDataset) (fs : FS)
    (idx : Z) : result (Image * Target) :=
  image_path ← Py.getitem (_jpg_paths self) idx;
  target_path ← Py.getitem (_csv_paths self) idx;
  image ← convert_RGB <$> Image_open fs image_path;
  target_df ← csv_to_df fs target_path;
  target ← make_target (_bird_only self) idx target_df;
  match _transform self with
  | Some transform => transform image target
  | None => Ok (image, target)
  end.

(** [ObjectDetectionDataset.__len__] *)
Definition __len__ (self : ObjectDetectionDataset) : Z :=
  Py.len (_jpg_paths self).

(** [od_collate_fn]: the tuple of the [zip] of the unpacked batch, that
    is the tuple of the images and the tuple of the targets of a batch
    of pairs; the empty tuple for an empty batch. *)
Definition od_collate_fn (batch : list (Image * Target))
  : list (list (Image + Target)) :=
  match batch with
  | [] => []
  | _ => [map (λ p, inl (fst p)) batch; map (λ p, inr (snd p)) batch]
  end.

(** The loader object: the data set and the batching options; its
    collate function is [od_collate_fn]. *)
Record DataLoader := {
  dataset : ObjectDetectionDataset;
  batch_size : Z;
  shuffle : bool
}.

(** [get_od_dataloader]; [species] goes to the fourth positional
    parameter of the data set, [bird_only]. *)
Definition get_od_dataloader (jpg_paths csv_paths : list string)
    (transform : option Transform) (batch_size : Z) (shuffle : bool)
    (species : bool) : DataLoader :=
  let od_dataset := __init__ jpg_paths csv_paths transform species in
  {| dataset := od_dataset; batch_size := batch_size; shuffle := shuffle |}.

End Dataloader.

(* ===================================================================== *)
(** * src/optimizers/sgd.py *)
(* ===================================================================== *)

Module Sgd.

(** A parameter of a model: its name, its values and whether gradients
    are computed for it. *)
Record Param := {
  name : string;
  data : list float32;
  requires_grad : bool
}.

(** A model, as far as the optimizer sees it: [model.parameters()]. *)
Record Model := { parameters : list Param }.

(** The optimizer object: its single parameter group. *)
Record SGD := {
  params : list Param;
  lr : float64;
  momentum : float64;
  dampening : float64;
  weight_decay : float64;
  nesterov : bool
}.

(** [torch.optim.SGD(params, lr=, momentum=, weight_decay=)] of the
    library: negative hyperparameters and an empty parameter list are
    refused with ValueError; dampening and nesterov keep their
    defaults. *)
Definition torch_optim_SGD (params : list Param)
    (lr momentum weight_decay : float64) : result SGD :=
  if SFltb lr zero64 then Raise (ValueError "Invalid learning rate")
  else if SFltb momentum zero64
  then Raise (ValueError "Invalid momentum value")
  else if SFltb weight_decay zero64
  then Raise (ValueError "Invalid weight_decay value")
  else match params with
       | [] => Raise (ValueError "optimizer got an empty parameter list")
       | _ => Ok {| params := params; lr := lr; momentum := momentum;
                    dampening := zero64; weight_decay := weight_decay;
                    nesterov := false |}
       end.

(** [[param for param in parameters if param.requires_grad]] *)
Fixpoint comprehension (parameters : list Param) : list Param :=
  match parameters with
  | [] => []
  | param :: rest =>
      if requires_grad param
      then param :: comprehension rest
      else comprehension rest
  end.

Definition default_momentum : float64 := dec64 9 10.
Definition default_weight_decay : float64 := dec64 5 10000.

(** [get_sgd_optim(model, lr, momentum=0.9, weight_decay=0.0005)]; an
    argument left out is [None] here. *)
Definition get_sgd_optim (model : Model) (lr : float64)
    (momentum weight_decay : option float64) : result SGD :=
  let momentum := default default_momentum momentum in
  let weight_decay := default default_weight_decay weight_decay in
  let params := comprehension (parameters model) in
  torch_optim_SGD params lr momentum weight_decay.

End Sgd.

(* ===================================================================== *)
(** * config.py *)
(* ===================================================================== *)

Module Config.

(** The Python values of the module. *)
#[warnings="-register-all"]
Inductive value :=
| VBool (b : bool)
| VInt (z : Z)
| VFloat (x : float64)
| VStr (s : string)
| VDevice (kind : string)
| VTuple (items : list value)
| VList (items : list value)
| VDict (d : gmap string value).

(** [d[k]] on a dictionary. *)
Definition subscript (d : value) (k : string) : result value :=
  match d with
  | VDict d => match d !! k with
               | Some v => Ok v
               | None => Raise (KeyError k)
               end
  | _ => Raise (TypeError "object is not subscriptable")
  end.

(** [t[i]] on a tuple or a list. *)
Definition item (t : value) (i : Z) : result value :=
  match t with
  | VTuple items | VList items => Py.getitem items i
  | _ => Raise (TypeError "object is not subscriptable")
  end.

(** [a + b] on strings. *)
Definition add (a b : value) : result value :=
  match a, b with
  | VStr a, VStr b => Ok (VStr (a ++ b))
  | _, _ => Raise (TypeError "unsupported operand type(s) for +")
  end.

Definition dec (n d : Z) : value := VFloat (dec64 n d).

(** The names the module body binds, in its order.  [cuda_is_available]
    is the answer of [torch.cuda.is_available()]. *)
Definition load (cuda_is_available : bool) : result (gmap string value) :=
  let BIRD_ONLY := true in
  let SUBSET := true in
  let DEVICE := if cuda_is_available then VDevice "cuda" else VDevice "cpu" in
  let SEED := VInt 2023 in
  let CONFIG := VDict (
    <["model" := if BIRD_ONLY then VTuple [VStr "bird_only"; VInt 2]
                 else VTuple [VStr "species"; VInt 23]]> (
    <["data_split" := if SUBSET
                      then VTuple [dec 4 100; dec 5 1000; dec 5 1000]
                      else VTuple [dec 8 10; dec 1 10; dec 1 10]]> (
    <["batch_size" := if SUBSET then VInt 1 else VInt 8]> ∅))) in
  let HYPERPARAMS := VDict (
    <["num_epoch" := VInt 5]> (<["l_r" := dec 2 1000]> ∅)) in
  let PLOTS_PATH := VStr "./plots/" in
  let DATA_PATH := VStr "./database/" in
  IMG_PATH ← add DATA_PATH (VStr "detection/raw_data/images/");
  OLD_CSV_PATH ← add DATA_PATH (VStr "detection/raw_data/csv_files_old/");
  NEW_CSV_PATH ← add DATA_PATH (VStr "detection/raw_data/csv_files_new/");
  TILED_IMG_PATH ← add DATA_PATH (VStr "detection/tiled_data/images/");
  TILED_OLD_CSV_PATH ←
    add DATA_PATH (VStr "detection/tiled_data/csv_files_old/");
  TILED_NEW_CSV_PATH ←
    add DATA_PATH (VStr "detection/tiled_data/csv_files_new/");
  CROPPED_PATH ← add DATA_PATH (VStr "cropped/");
  models ← add DATA_PATH (VStr "models/");
  model ← subscript CONFIG "model";
  model_name ← item model 0;
  models_name ← add models model_name;
  DETECTOR_PATH ← add models_name (VStr "/");
  let DESC_MAPPING := VDict (
    <["Great Egret Flying" := VStr "Great Egret Adult"]> (
    <["Reddish Egret Flying" := VStr "Reddish Egret Adult"]> (
    <["White Ibis Juvenile" := VStr "White Ibis Adult"]> (
    <["Black Skimmer flying" := VStr "Black Skimmer Adult"]> (
    <["Great Blue Heron Flying" := VStr "Great Blue Heron Adult"]> (
    <["Laughing Gull Flying" := VStr "Laughing Gull Adult"]> (
    <["Brown Pelican In Flight" := VStr "Brown Pelican Adult"]> (
    <["Brown Pelican - Wings Spread" := VStr "Brown Pelican Adult"]> (
    <["Mixed Tern Flying" := VStr "Mixed Tern Adult"]> (
    <["Reddish Egret Chick" := VStr "Reddish Egret Adult"]> (
    <["Laughing Gull Juvenile" := VStr "Laughing Gull Adult"]> (
    <["Brown Pelican Wings Spread" := VStr "Brown Pelican Adult"]> (
    <["Black Crowned Night Heron Adult" :=
        VStr "Black-Crowned Night Heron Adult"]> (
    <["Tri-Colored Heron Adult" := VStr "Tricolored Heron Adult"]> (
    <["Cattle Egret Flying" := VStr "Cattle Egret Adult"]> (
    <["Trash/Debris" := VStr "Debris"]> (
    <["Great Egret/White Morph Adult" :=
        VStr "Great Egret or White Morph Adult"]> ∅))))))))))))))))) in
  let ON_DELETE := VList [
    VStr "Great Blue Heron Egg";
    VStr "White Ibis Nest";
    VStr "Double-Crested Cormorant Adult";
    VStr "Great Blue Heron Nest";
    VStr "American Avocet Adult";
    VStr "Trash";
    VStr "American Oystercatcher"] in
  Ok (<["BIRD_ONLY" := VBool BIRD_ONLY]> (
      <["SUBSET" := VBool SUBSET]> (
      <["DEVICE" := DEVICE]> (
      <["SEED" := SEED]> (
      <["CONFIG" := CONFIG]> (
      <["HYPERPARAMS" := HYPERPARAMS]> (
      <["PLOTS_PATH" := PLOTS_PATH]> (
      <["DATA_PATH" := DATA_PATH]> (
      <["IMG_PATH" := IMG_PATH]> (
      <["OLD_CSV_PATH" := OLD_CSV_PATH]> (
      <["NEW_CSV_PATH" := NEW_CSV_PATH]> (
      <["TILED_IMG_PATH" := TILED_IMG_PATH]> (
      <["TILED_OLD_CSV_PATH" := TILED_OLD_CSV_PATH]> (
      <["TILED_NEW_CSV_PATH" := TILED_NEW_CSV_PATH]> (
      <["CROPPED_PATH" := CROPPED_PATH]> (
      <["DETECTOR_PATH" := DETECTOR_PATH]> (
      <["DESC_MAPPING" := DESC_MAPPING]> (
      <["ON_DELETE" := ON_DELETE]> ∅)))))))))))))))))).

End Config.

(* ===================================================================== *)
(** * utils/data_vis.py: the plotting routines and the file system *)
(* ===================================================================== *)

Section DataVis.

Context {Image Figure Colormap : Type}.

Abbreviation FS := (gmap string (@file Image)).

(** The state the operations run in: the names bound by [config.py] and
    the file system. *)
Record State := {
  config : gmap string Config.value;
  files : FS
}.

(** Process start: the configuration module is loaded, once. *)
Definition boot (cuda_is_available : bool) (fs : FS) : result State :=
  cfg ← Config.load cuda_is_available;
  Ok {| config := cfg; files := fs |}.

(** A computation in the state: the state it leaves and its result or
    exception. *)
Definition Run (A : Type) : Type := State → State * result A.

Definition ret {A} (a : A) : Run A := λ s, (s, Ok a).

Definition bind {A B} (m : Run A) (k : A → Run B) : Run B :=
  λ s, match m s with
       | (s', Ok a) => k a s'
       | (s', Raise e) => (s', Raise e)
       end.

#[local] Instance Run_ret : MRet Run := @ret.
#[local] Instance Run_bind : MBind Run := λ A B k m, bind m k.

(** A computation without effect. *)
Definition pure {A} (r : result A) : Run A := λ s, (s, r).

(** A computation that reads the file system. *)
Definition reading {A} (f : FS → result A) : Run A :=
  λ s, (s, f (files s)).

(** Writing one file. *)
Definition writing (fname : string) (content : @file Image) : Run unit :=
  λ s, ({| config := config s; files := <[fname := content]> (files s) |},
        Ok ()).

(** [SAVE_FIG] of the [const] module, which is not among the sources. *)
Variable SAVE_FIG : bool.

(** The imaging and charting libraries: [convert('RGB')], what is drawn
    from the data given (or the exception raised), the raster image of a
    figure saved as JPEG, the colour maps. *)
Variable convert_RGB : Image → Image.
Variable bar_chart :
  DataFrame → string → string * string * string → Z → option Z →
  result Figure.
Variable boxes_chart : Image → DataFrame → result Figure.
Variable curves_chart :
  list float64 → list float64 → string → result Figure.
Variable precision_recall_chart :
  list (list float64) → list Z → string → result Figure.
Variable image_chart : Image → result Figure.
Variable draw_bounding_boxes : Image → Target → float64 → result Image.
Variable rasterise : Figure → Image.
Variable plt_cm_get_cmap : string → Z → Colormap.

(** [get_cmap(num, name='tab20c')] *)
Definition get_cmap (num : Z) (name : option string) : Colormap :=
  plt_cm_get_cmap (default "tab20c" name) num.

(** [if SAVE_FIG: fig.savefig(fname, bbox_inches='tight')] *)
Definition savefig (fname : string) (content : @file Image) : Run unit :=
  if SAVE_FIG then writing fname content else ret ().

Definition plot_distribution (data_frame : DataFrame) (col_name : string)
    (info : string * string * string) (path : string) (font_size : Z)
    (filt : option Z) : Run Figure :=
  let '(x_label, y_label, title) := info in
  fig ← pure (bar_chart data_frame col_name info font_size filt);
  _ ← savefig (path ++ title ++ ".pdf") (PdfFile title);
  ret fig.

Definition plot_boxes (jpg_name bbx_name title path : string)
  : Run Figure :=
  image ← reading (λ fs, Image_open fs jpg_name);
  annos ← reading (λ fs, csv_to_df fs bbx_name);
  fig ← pure (boxes_chart image annos);
  _ ← savefig (path ++ title ++ ".jpg") (JpegFile (rasterise fig));
  ret fig.

Definition plot_training_curves (train_loss test_loss : list float64)
    (path title : string) : Run Figure :=
  fig ← pure (curves_chart train_loss test_loss title);
  _ ← savefig (path ++ title ++ ".pdf") (PdfFile title);
  ret fig.

Definition plot_precision_recall (stat_arr : list (list float64))
    (epochs : list Z) (path title : string) : Run Figure :=
  fig ← pure (precision_recall_chart stat_arr epochs title);
  _ ← savefig (path ++ title ++ ".pdf") (PdfFile title);
  ret fig.

Definition show (img : Image) : Run Figure := pure (image_chart img).

Definition visualize_predictions (file_paths : string) (output : Target)
    (path title : string) (score_threshold : float64) : Run unit :=
  img ← reading (λ fs, Image_open fs file_paths);
  result ← pure (draw_bounding_boxes img output score_threshold);
  fig ← show result;
  savefig (path ++ title ++ ".jpg") (JpegFile (rasterise fig)).

Definition plot_confusion_matrix : Run unit := ret ().

(** A call of one of the functions of the repository, with its
    arguments. *)
Inductive call :=
| Call_init (jpg_paths csv_paths : list string)
    (transform : option (@Transform Image)) (bird_only : bool)
| Call_getitem (self : @ObjectDetectionDataset Image) (idx : Z)
| Call_len (self : @ObjectDetectionDataset Image)
| Call_od_collate_fn (batch : list (Image * Target))
| Call_get_od_dataloader (jpg_paths csv_paths : list string)
    (transform : option (@Transform Image)) (batch_size : Z)
    (shuffle species : bool)
| Call_get_sgd_optim (model : Sgd.Model) (lr : float64)
    (momentum weight_decay : option float64)
| Call_get_cmap (num : Z) (name : option string)
| Call_plot_distribution (data_frame : DataFrame) (col_name : string)
    (info : string * string * string) (path : string) (font_size : Z)
    (filt : option Z)
| Call_plot_boxes (jpg_name bbx_name title path : string)
| Call_plot_training_curves (train_loss test_loss : list float64)
    (path title : string)
| Call_plot_precision_recall (stat_arr : list (list float64))
    (epochs : list Z) (path title : string)
| Call_show (img : Image)
| Call_visualize_predictions (file_paths : string) (output : Target)
    (path title : string) (score_threshold : float64)
| Call_plot_confusion_matrix.

(** A call as a statement: its result is dropped. *)
Definition void {A} (m : Run A) : Run unit := _ ← m; ret ().

Definition exec (c : call) : Run unit :=
  match c with
  | Call_init jpg_paths csv_paths transform bird_only =>
      void (ret (__init__ jpg_paths csv_paths transform bird_only))
  | Call_getitem self idx =>
      void (reading (λ fs, __getitem__ convert_RGB self fs idx))
  | Call_len self => void (ret (__len__ self))
  | Call_od_collate_fn batch => void (ret (od_collate_fn batch))
  | Call_get_od_dataloader jpg_paths csv_paths transform batch_size
      shuffle species =>
      void (ret (get_od_dataloader jpg_paths csv_paths transform batch_size
                   shuffle species))
  | Call_get_sgd_optim model lr momentum weight_decay =>
      void (pure (Sgd.get_sgd_optim model lr momentum weight_decay))
  | Call_get_cmap num name => void (ret (get_cmap num name))
  | Call_plot_distribution data_frame col_name info path font_size filt =>
      void (plot_distribution data_frame col_name info path font_size filt)
  | Call_plot_boxes jpg_name bbx_name title path =>
      void (plot_boxes jpg_name bbx_name title path)
  | Call_plot_training_curves train_loss test_loss path title =>
      void (plot_training_curves train_loss test_loss path title)
  | Call_plot_precision_recall stat_arr epochs path title =>
      void (plot_precision_recall stat_arr epochs path title)
  | Call_show img => void (show img)
  | Call_visualize_predictions file_paths output path title thr =>
      visualize_predictions file_paths output path title thr
  | Call_plot_confusion_matrix => plot_confusion_matrix
  end.

(** The state after a sequence of calls; a call that raises is caught by
    the caller and the next one runs. *)
Definition run (cs : list call) (s : State) : State :=
  foldl (λ s c, fst (exec c s)) s cs.

(** A computation that leaves the configuration as it found it. *)
Definition keeps_config {A} (m : Run A) : Prop :=
  ∀ s, config (fst (m s)) = config s.

End DataVis.

(* ===================================================================== *)
(** * Vocabulary of the statements *)
(* ===================================================================== *)

(** The box read from one row: [[xmin; ymin; xmax; ymax]], when the row
    has the four columns. *)
Definition box_of_row (r : Series) : option (list num) :=
  x_1 ← r !! "xmin";
  y_1 ← r !! "ymin";
  x_2 ← r !! "xmax";
  y_2 ← r !! "ymax";
  Some [x_1; y_1; x_2; y_2].

(** Every row has the four coordinate columns. *)
Definition has_boxes (df : DataFrame) : Prop :=
  Forall (λ r, is_Some (box_of_row r)) (rows df).

(** The table has a class-id column, filled in every row. *)
Definition has_class_ids (df : DataFrame) : Prop :=
  "class_id" ∈ columns df ∧
  Forall (λ r : Series, is_Some (r !! "class_id")) (rows df).

(** The labels can be built: always in bird-only mode, from the class-id
    column otherwise. *)
Definition labelled (bird_only : bool) (df : DataFrame) : Prop :=
  bird_only = true ∨ has_class_ids df.

(** Width times height of a float32 box [[xmin; ymin; xmax; ymax]], in
    float32 arithmetic. *)
Definition width_times_height (xmin ymin xmax ymax : float32) : float32 :=
  f32_mul (f32_sub xmax xmin) (f32_sub ymax ymin).

(** The box tensor of a non-empty list of boxes: one float32 row each. *)
Definition box_tensor (bs : list (list num)) : Tensor :=
  Float32_2d (map (map to_f32) bs).

(** Entry [k] of a row of the box tensor. *)
Definition entry (k : nat) (r : list float32) : float32 :=
  nth k r (S754_zero false).

(** The area of a row of the box tensor as line 46 computes it:
    [(r[3] - r[1]) * (r[2] - r[0])]. *)
Definition area_of_row (r : list float32) : float32 :=
  f32_mul (f32_sub (entry 3 r) (entry 1 r)) (f32_sub (entry 2 r) (entry 0 r)).

(** The dictionary of lines 52-57. *)
Definition target_dict (boxes labels image_id area iscrowd : Tensor)
  : Target :=
  <["iscrowd" := iscrowd]> (<["area" := area]> (<["image_id" := image_id]>
    (<["labels" := labels]> (<["boxes" := boxes]> ∅)))).

(** The label vector of [t] has one entry per row of [df], and its box
    array one row of four elements per row of [df]. *)
Definition sizes_match (df : DataFrame) (t : Target) : Prop :=
  ∃ v m,
    t !! "labels" = Some (Int64_1d v) ∧ length v = Pandas.len df ∧
    t !! "boxes" = Some (Float32_2d m) ∧ length m = Pandas.len df ∧
    Forall (λ r, length r = 4) m.

(** Every label of [t] is the bird class id, one per row of [df]. *)
Definition all_birds (df : DataFrame) (t : Target) : Prop :=
  ∃ v, t !! "labels" = Some (Int64_1d v) ∧
       length v = Pandas.len df ∧ Forall (λ l, l = 1%Z) v.

(** Two tables with the same columns whose rows agree on every column but
    the class id. *)
Definition same_but_class_id (df1 df2 : DataFrame) : Prop :=
  columns df1 = columns df2 ∧
  Forall2 (λ r1 r2 : Series, delete "class_id" r1 = delete "class_id" r2)
    (rows df1) (rows df2).

(** The area entry of [t] for each row of [df] is the width times the
    height of the row's box, in the float32 arithmetic of the box
    tensor. *)
Definition area_is_width_times_height (df : DataFrame) (t : Target) : Prop :=
  ∃ a, t !! "area" = Some (Float32_1d a) ∧
       length a = Pandas.len df ∧
       ∀ i r, rows df !! i = Some r →
         ∃ xmin ymin xmax ymax,
           r !! "xmin" = Some xmin ∧ r !! "ymin" = Some ymin ∧
           r !! "xmax" = Some xmax ∧ r !! "ymax" = Some ymax ∧
           a !! i = Some (width_times_height (to_f32 xmin) (to_f32 ymin)
                                             (to_f32 xmax) (to_f32 ymax)).

(** The crowd flags of [t]: one per row of [df], all zero. *)
Definition iscrowd_all_zero (df : DataFrame) (t : Target) : Prop :=
  ∃ v, t !! "iscrowd" = Some (Int64_1d v) ∧
       length v = Pandas.len df ∧ Forall (λ c, c = 0%Z) v.

(** The trainable parameters of a model: those whose [requires_grad] is
    true, in the order of [model.parameters()]. *)
Definition trainable (model : Sgd.Model) : list Sgd.Param :=
  filter (λ p : Sgd.Param, Sgd.requires_grad p = true) (Sgd.parameters model).

(** The hyperparameters the library accepts. *)
Definition accepted (lr momentum weight_decay : float64) : Prop :=
  SFltb lr zero64 = false ∧
  SFltb momentum zero64 = false ∧
  SFltb weight_decay zero64 = false.

Section DataloaderVocabulary.

Context {Image : Type}.

(** [__getitem__] at [idx] gets as far as the image [img] and the
    annotation table [df]: both paths exist and both files load. *)
Definition loads (self : @ObjectDetectionDataset Image)
    (fs : gmap string (@file Image)) (idx : Z)
    (img : Image) (df : DataFrame) : Prop :=
  ∃ image_path target_path,
    Py.getitem (_jpg_paths self) idx = Ok image_path ∧
    Py.getitem (_csv_paths self) idx = Ok target_path ∧
    fs !! image_path = Some (JpegFile img) ∧
    fs !! target_path = Some (CsvFile df).

(** How the pair [(image, target)] that [__getitem__] returns comes from
    the loaded image [image0] and the constructed target [target0]:
    unchanged without a transform, through the transform otherwise. *)
Definition returned_from (transform : option (@Transform Image))
    (image0 : Image) (target0 : Target)
    (image : Image) (target : Target) : Prop :=
  match transform with
  | None => image = image0 ∧ target = target0
  | Some f => f image0 target0 = Ok (image, target)
  end.

End DataloaderVocabulary.

(** ** A small data set *)

Module Demo.

(** Images reduced to their mode and a name. *)
Inductive picture := Picture (mode : string) (name : string).

Definition convert_RGB (p : picture) : picture :=
  match p with Picture _ name => Picture "RGB" name end.

Definition header : list string :=
  ["class_id"; "xmin"; "ymin"; "xmax"; "ymax"].

(** A line of a file with this header. *)
Definition row (class_id xmin ymin xmax ymax : Z) : list num :=
  [NpInt64 class_id; NpInt64 xmin; NpInt64 ymin; NpInt64 xmax; NpInt64 ymax].

(** Two birds of species 7 and 3. *)
Definition two_birds : DataFrame :=
  {| columns := header;
     records := [row 7 10 20 110 70; row 3 0 0 4099 4099] |}.

(** The same boxes with other class ids. *)
Definition two_birds_relabelled : DataFrame :=
  {| columns := header;
     records := [row 1 10 20 110 70; row 2 0 0 4099 4099] |}.

(** An annotation file with a header and no rows. *)
Definition no_birds : DataFrame := {| columns := header; records := [] |}.

Definition fs : gmap string (@file picture) :=
  <["a.jpg" := JpegFile (Picture "L" "a")]>
    (<["a.csv" := CsvFile two_birds]>
      (<["b.jpg" := JpegFile (Picture "RGB" "b")]>
        (<["b.csv" := CsvFile no_birds]> ∅))).

(** A transform that keeps the first box only, as a crop that cuts the
    others off does. *)
Definition keep_first_box : @Transform picture :=
  λ image target,
    let first (t : Tensor) : Tensor :=
      match t with
      | Int64_1d v => Int64_1d (take 1 v)
      | Float32_1d v => Float32_1d (take 1 v)
      | Float32_2d m => Float32_2d (take 1 m)
      end in
    Ok (image,
        alter first "boxes" (alter first "labels"
          (alter first "area" (alter first "iscrowd" target)))).

(** A transform that shifts every label by one. *)
Definition shift_labels : @Transform picture :=
  λ image target,
    let shift (t : Tensor) : Tensor :=
      match t with
      | Int64_1d v => Int64_1d (map Z.succ v)
      | _ => t
      end in
    Ok (image, alter shift "labels" target).

Definition plain : @ObjectDetectionDataset picture :=
  __init__ ["a.jpg"; "b.jpg"] ["a.csv"; "b.csv"] None true.

Definition cropped : @ObjectDetectionDataset picture :=
  __init__ ["a.jpg"; "b.jpg"] ["a.csv"; "b.csv"] (Some keep_first_box) true.

Definition shifted : @ObjectDetectionDataset picture :=
  __init__ ["a.jpg"; "b.jpg"] ["a.csv"; "b.csv"] (Some shift_labels) true.

(** More images than annotation files. *)
Definition unpaired : @ObjectDetectionDataset picture :=
  __init__ ["a.jpg"; "b.jpg"] ["a.csv"] None true.

(** A model with a frozen backbone and a trainable head. *)
Definition backbone : Sgd.Param :=
  {| Sgd.name := "backbone.weight";
     Sgd.data := [S754_zero false];
     Sgd.requires_grad := false |}.

Definition head_weight : Sgd.Param :=
  {| Sgd.name := "head.weight";
     Sgd.data := [S754_zero false; S754_zero false];
     Sgd.requires_grad := true |}.

Definition head_bias : Sgd.Param :=
  {| Sgd.name := "head.bias";
     Sgd.data := [S754_zero false];
     Sgd.requires_grad := true |}.

Definition detector : Sgd.Model :=
  {| Sgd.parameters := [head_weight; backbone; head_bias] |}.

(** The learning rate of [config.py], 0.002. *)
Definition l_r : float64 := dec64 2 1000.

End Demo.

(** ** Vocabulary of the further properties *)

(** Row [i] of the box array of [t] is the float32 of
    [[xmin; ymin; xmax; ymax]] of row [i] of [df]. *)
Definition boxes_are_rows (df : DataFrame) (t : Target) : Prop :=
  ∃ m, t !! "boxes" = Some (Float32_2d m) ∧
       length m = Pandas.len df ∧
       ∀ i r, rows df !! i = Some r →
         ∃ xmin ymin xmax ymax,
           r !! "xmin" = Some xmin ∧ r !! "ymin" = Some ymin ∧
           r !! "xmax" = Some xmax ∧ r !! "ymax" = Some ymax ∧
           m !! i = Some [to_f32 xmin; to_f32 ymin; to_f32 xmax; to_f32 ymax].

(** Label [i] of [t] is the class id of row [i] of [df], as an int64. *)
Definition labels_are_class_ids (df : DataFrame) (t : Target) : Prop :=
  ∃ v, t !! "labels" = Some (Int64_1d v) ∧
       length v = Pandas.len df ∧
       ∀ i r, rows df !! i = Some r →
         ∃ c, r !! "class_id" = Some c ∧ v !! i = Some (to_i64 c).

(** The first of the four coordinate columns that a row lacks, in the
    order the loop reads them. *)
Definition first_missing (r : Series) : option string :=
  match r !! "xmin", r !! "ymin", r !! "xmax", r !! "ymax" with
  | None, _, _, _ => Some "xmin"
  | _, None, _, _ => Some "ymin"
  | _, _, None, _ => Some "xmax"
  | _, _, _, None => Some "ymax"
  | _, _, _, _ => None
  end.

(** The first of the four coordinate columns that a table lacks, in the
    order the loop reads them. *)
Definition first_missing_column (columns : list string) : option string :=
  if decide ("xmin" ∈ columns) then
    if decide ("ymin" ∈ columns) then
      if decide ("xmax" ∈ columns) then
        if decide ("ymax" ∈ columns) then None else Some "ymax"
      else Some "xmax"
    else Some "ymin"
  else Some "xmin".

(** The keys of a target. *)
Definition target_keys : gset string :=
  {["boxes"; "labels"; "image_id"; "area"; "iscrowd"]}.

Section MoreVocabulary.

Context {Image : Type}.

(** The data set [self] with another transform. *)
Definition with_transform (transform : option (@Transform Image))
    (self : @ObjectDetectionDataset Image) : @ObjectDetectionDataset Image :=
  {| _jpg_paths := _jpg_paths self;
     _csv_paths := _csv_paths self;
     _transform := transform;
     _bird_only := _bird_only self |}.

End MoreVocabulary.

(** ** More sample data *)

Module Sample.

(** A table in the other layout, x, y, width and height. *)
Definition xywh : DataFrame :=
  {| columns := ["x"; "y"; "width"; "height"];
     records := [[NpInt64 10; NpInt64 20; NpInt64 100; NpInt64 50]] |}.

(** A table without class ids. *)
Definition unlabelled : DataFrame :=
  {| columns := ["xmin"; "ymin"; "xmax"; "ymax"];
     records := [[NpInt64 10; NpInt64 20; NpInt64 110; NpInt64 70]] |}.

(** The data set of the two images in species mode. *)
Definition species : @ObjectDetectionDataset Demo.picture :=
  __init__ ["a.jpg"; "b.jpg"] ["a.csv"; "b.csv"] None false.

(** Three annotation files for two images. *)
Definition misaligned : @ObjectDetectionDataset Demo.picture :=
  __init__ ["a.jpg"; "b.jpg"] ["a.csv"; "b.csv"; "c.csv"] None true.

Definition batch : list (Demo.picture * Target) :=
  [(Demo.Picture "RGB" "a", ∅);
   (Demo.Picture "RGB" "b", {["labels" := Int64_1d [1%Z]]})].

(** A charting library whose figures are their names, and whose raster
    images are pictures of that name. *)
Definition rasterise (fig : string) : Demo.picture := Demo.Picture "RGB" fig.


(** [plot_boxes] with this library, saving figures. *)
Definition plot_boxes (jpg_name bbx_name title path : string)
  : @Run Demo.picture string :=
  plot_boxes true (λ _ _, Ok "boxes") rasterise jpg_name bbx_name title path.

(** A species data set over a table without class ids. *)
Definition unlabelled_fs : gmap string (@file Demo.picture) :=
  <["u.csv" := CsvFile unlabelled]> Demo.fs.

Definition unlabelled_species : @ObjectDetectionDataset Demo.picture :=
  __init__ ["a.jpg"] ["u.csv"] None false.

(** A frozen and a trainable parameter list. *)
Definition frozen : list Sgd.Param := [Demo.backbone].
Definition head : list Sgd.Param := [Demo.head_weight; Demo.head_bias].

End Sample.

(* ===================================================================== *)
(** * Properties *)
(* ===================================================================== *)

(** ** The result monad *)

Lemma bind_Ok_inv {A B} (m : result A) (k : A → result B) (b : B) :
  m ≫= k = Ok b → ∃ a, m = Ok a ∧ k a = Ok b.
Proof. destruct m as [a|e]; simpl; [eauto | discriminate]. Qed.

Lemma fmap_Ok_inv {A B} (f : A → B) (m : result A) (b : B) :
  f <$> m = Ok b → ∃ a, m = Ok a ∧ b = f a.
Proof. destruct m as [a|e]; simpl; [|discriminate]. intros [= <-]. eauto. Qed.


(** ** Python list indexing *)

Lemma getitem_in_range {A} (l : list A) (i : Z) :
  in_range l i → returns (Py.getitem l i).
Proof.
  unfold in_range, Py.getitem, returns. intros Hi.
  destruct (Z.ltb_spec i 0) as [Hneg|Hpos].
  - replace ((i + Z.of_nat (length l) <? 0)%Z) with false by lia.
    replace ((Z.of_nat (length l) <=? i + Z.of_nat (length l))%Z)
      with false by lia.
    simpl. destruct (lookup_lt_is_Some_2 l (Z.to_nat (i + Z.of_nat (length l))))
      as [x ->]; [lia | eauto].
  - replace ((i <? 0)%Z) with false by lia.
    replace ((Z.of_nat (length l) <=? i)%Z) with false by lia.
    simpl. destruct (lookup_lt_is_Some_2 l (Z.to_nat i)) as [x ->]; [lia | eauto].
Qed.

Lemma getitem_out_of_range {A} (l : list A) (i : Z) :
  ¬ in_range l i →
  Py.getitem l i = Raise (IndexError "list index out of range").
Proof.
  unfold in_range, Py.getitem. intros Hi.
  destruct (Z.ltb_spec i 0) as [Hneg|Hpos].
  - destruct (Z.ltb_spec (i + Z.of_nat (length l)) 0); [done|]. lia.
  - destruct (Z.ltb_spec i 0); [lia|].
    destruct (Z.leb_spec (Z.of_nat (length l)) i); [done|]. lia.
Qed.

Lemma getitem_Ok_in_range {A} (l : list A) (i : Z) (x : A) :
  Py.getitem l i = Ok x → in_range l i.
Proof.
  intros H.
  destruct (decide (- Z.of_nat (length l) ≤ i < Z.of_nat (length l))%Z)
    as [Hy|Hn]; [exact Hy|].
  rewrite (getitem_out_of_range _ _ Hn) in H. discriminate.
Qed.

Lemma getitem_Raise_inv {A} (l : list A) (i : Z) (e : exn) :
  Py.getitem l i = Raise e → e = IndexError "list index out of range".
Proof.
  unfold Py.getitem. cbv zeta. intros H.
  destruct (_ || _); [by injection H as <-|].
  destruct (l !! _); [discriminate | by injection H as <-].
Qed.

(** ** The box loop *)

Lemma iloc_row (df : DataFrame) (i : nat) (r : Series) (c : string) :
  rows df !! i = Some r →
  iloc df i c = match r !! c with
                | Some x => Ok x
                | None => Raise (KeyError c)
                end.
Proof. intros H. unfold iloc. by rewrite H. Qed.

Lemma box_of_row_Some (r : Series) (x_1 y_1 x_2 y_2 : num) :
  r !! "xmin" = Some x_1 → r !! "ymin" = Some y_1 →
  r !! "xmax" = Some x_2 → r !! "ymax" = Some y_2 →
  box_of_row r = Some [x_1; y_1; x_2; y_2].
Proof. intros H1 H2 H3 H4. unfold box_of_row. by rewrite H1, H2, H3, H4. Qed.

Lemma box_of_row_inv (r : Series) (b : list num) :
  box_of_row r = Some b →
  ∃ x_1 y_1 x_2 y_2,
    r !! "xmin" = Some x_1 ∧ r !! "ymin" = Some y_1 ∧
    r !! "xmax" = Some x_2 ∧ r !! "ymax" = Some y_2 ∧
    b = [x_1; y_1; x_2; y_2].
Proof.
  unfold box_of_row. intros H.
  destruct (r !! "xmin") as [x_1|]; [|discriminate].
  destruct (r !! "ymin") as [y_1|]; [|discriminate].
  destruct (r !! "xmax") as [x_2|]; [|discriminate].
  destruct (r !! "ymax") as [y_2|]; [|discriminate].
  injection H as <-. by exists x_1, y_1, x_2, y_2.
Qed.

(** The loop over the rows from [s] on appends their boxes, in order. *)
Lemma append_boxes_Some (df : DataFrame) (n s : nat)
    (acc l : list (list num)) :
  s + n = length (rows df) →
  mapM box_of_row (drop s (rows df)) = Some l →
  append_boxes df (seq s n) acc = Ok (acc ++ l).
Proof.
  revert s acc l. induction n as [|n IH]; intros s acc l Hlen Hl.
  - rewrite drop_ge in Hl by lia. injection Hl as <-.
    simpl. by rewrite app_nil_r.
  - destruct (lookup_lt_is_Some_2 (rows df) s) as [r Hr]; [lia|].
    rewrite (drop_S _ _ _ Hr) in Hl. simpl in Hl.
    destruct (box_of_row r) as [b|] eqn:Hb; [|discriminate].
    destruct (mapM box_of_row (drop (S s) (rows df))) as [l'|] eqn:Hl';
      [|discriminate].
    injection Hl as <-.
    apply box_of_row_inv in Hb
      as (x_1 & y_1 & x_2 & y_2 & H1 & H2 & H3 & H4 & ->).
    simpl. rewrite !(iloc_row _ _ _ _ Hr), H1, H2, H3, H4. simpl.
    rewrite (IH (S s) _ l') by (done || lia).
    by rewrite <- app_assoc.
Qed.

(** A row without one of the four columns stops the loop. *)
Lemma append_boxes_None (df : DataFrame) (n s : nat)
    (acc : list (list num)) :
  s + n = length (rows df) →
  mapM box_of_row (drop s (rows df)) = None →
  raises (append_boxes df (seq s n) acc).
Proof.
  revert s acc. induction n as [|n IH]; intros s acc Hlen Hl.
  - rewrite drop_ge in Hl by lia. discriminate.
  - destruct (lookup_lt_is_Some_2 (rows df) s) as [r Hr]; [lia|].
    rewrite (drop_S _ _ _ Hr) in Hl. simpl in Hl.
    simpl. rewrite !(iloc_row _ _ _ _ Hr).
    destruct (r !! "xmin") as [x_1|] eqn:H1; [|eexists; reflexivity].
    destruct (r !! "ymin") as [y_1|] eqn:H2; [|eexists; reflexivity].
    destruct (r !! "xmax") as [x_2|] eqn:H3; [|eexists; reflexivity].
    destruct (r !! "ymax") as [y_2|] eqn:H4; [|eexists; reflexivity].
    rewrite (box_of_row_Some _ _ _ _ _ H1 H2 H3 H4) in Hl. simpl in Hl.
    destruct (mapM box_of_row (drop (S s) (rows df))) eqn:Hl';
      [discriminate|].
    simpl. apply IH; [lia | done].
Qed.

(** What line 37-42 leave in [boxes]: the boxes of all rows, in order. *)
Lemma append_boxes_all (df : DataFrame) (bs : list (list num)) :
  append_boxes df (seq 0 (Pandas.len df)) [] = Ok bs ↔
  mapM box_of_row (rows df) = Some bs.
Proof.
  unfold Pandas.len. split.
  - intros H. destruct (mapM box_of_row (rows df)) as [l|] eqn:Hl.
    + rewrite (append_boxes_Some df _ 0 [] l) in H by done.
      by injection H as <-.
    + destruct (append_boxes_None df (length (rows df)) 0 []) as [e He];
        [done..|]. rewrite He in H. discriminate.
  - intros H. by rewrite (append_boxes_Some df _ 0 [] bs).
Qed.

Lemma has_boxes_mapM (df : DataFrame) :
  has_boxes df ↔ is_Some (mapM box_of_row (rows df)).
Proof.
  unfold has_boxes. split.
  - intros H. apply mapM_is_Some. exact H.
  - intros H. by apply mapM_is_Some.
Qed.

Lemma mapM_box_length (l : list Series) (bs : list (list num)) :
  mapM box_of_row l = Some bs →
  length bs = length l ∧ Forall (λ b, length b = 4) bs.
Proof.
  intros H. apply mapM_Some in H. split.
  - symmetry. by eapply Forall2_length.
  - induction H as [|r b l bs Hb _ IH]; constructor; [|done].
    by apply box_of_row_inv in Hb as (? & ? & ? & ? & _ & _ & _ & _ & ->).
Qed.

(** ** float32 arithmetic *)

Lemma f32_mul_comm (x y : float32) : f32_mul x y = f32_mul y x.
Proof.
  unfold f32_mul.
  destruct x as [sx|sx| |sx mx ex], y as [sy|sy| |sy my ey]; simpl;
    try reflexivity; try (by rewrite xorb_comm).
  by rewrite xorb_comm, Pos.mul_comm, Z.add_comm.
Qed.

Lemma area_of_row_box (x_1 y_1 x_2 y_2 : float32) :
  area_of_row [x_1; y_1; x_2; y_2] = width_times_height x_1 y_1 x_2 y_2.
Proof. unfold area_of_row, width_times_height. simpl. apply f32_mul_comm. Qed.

(** ** Tensors *)

Lemma as_tensor_float32_boxes (bs : list (list num)) :
  bs ≠ [] → Forall (λ b, length b = 4) bs →
  as_tensor_float32 bs = Ok (box_tensor bs).
Proof.
  intros Hne H4. destruct bs as [|b bs']; [done|].
  unfold as_tensor_float32.
  replace (forallb _ _) with true; [done|].
  symmetry. apply forallb_forall. intros b' Hin.
  apply Nat.eqb_eq. rewrite Forall_forall in H4.
  rewrite (H4 b'), (H4 b); [done | by left | by apply list_elem_of_In].
Qed.

Lemma select_column_boxes (m : list (list float32)) (k : nat) :
  Forall (λ r, length r = 4) m → k < 4 →
  select_column (Float32_2d m) k = Ok (Float32_1d (map (entry k) m)).
Proof.
  intros H4 Hk. unfold select_column.
  replace (mapM _ m) with (Some (map (entry k) m)); [done|].
  symmetry. apply mapM_Some.
  induction H4 as [|r m Hr _ IH]; simpl; constructor; [|done].
  unfold entry. destruct (lookup_lt_is_Some_2 r k) as [x Hx]; [lia|].
  rewrite Hx. f_equal. symmetry. by apply nth_lookup_Some.
Qed.

Lemma zip_with_map_map {A B C D} (f : B → C → D) (g : A → B) (h : A → C)
    (l : list A) :
  zip_with f (map g l) (map h l) = map (λ x, f (g x) (h x)) l.
Proof. induction l as [|x l IH]; simpl; [done | by rewrite IH]. Qed.

Lemma pointwise_map {A} (f : float32 → float32 → float32)
    (g h : A → float32) (l : list A) :
  pointwise f (Float32_1d (map g l)) (Float32_1d (map h l)) =
  Ok (Float32_1d (map (λ x, f (g x) (h x)) l)).
Proof.
  unfold pointwise. rewrite !length_map, Nat.eqb_refl.
  by rewrite zip_with_map_map.
Qed.

(** Line 46 on a box tensor: one area per row. *)
Lemma compute_area_boxes (m : list (list float32)) :
  Forall (λ r, length r = 4) m →
  compute_area (Float32_2d m) = Ok (Float32_1d (map area_of_row m)).
Proof.
  intros H4. unfold compute_area, Torch.sub, Torch.mul.
  rewrite !select_column_boxes by (done || lia).
  cbn [mbind result_bind Py.bind]. rewrite pointwise_map.
  cbn [mbind result_bind Py.bind]. rewrite pointwise_map.
  cbn [mbind result_bind Py.bind]. by rewrite pointwise_map.
Qed.

(** The box tensor of N boxes has shape (N, 4). *)
Lemma box_tensor_shape (bs : list (list num)) :
  bs ≠ [] → Forall (λ b, length b = 4) bs →
  shape (box_tensor bs) = [length bs; 4] ∧ dim (box_tensor bs) = 2.
Proof.
  intros Hne H4. destruct bs as [|b bs']; [done|].
  apply Forall_cons in H4 as [Hb _].
  simpl. by rewrite !length_map, Hb.
Qed.

Lemma box_tensor_rows (bs : list (list num)) :
  Forall (λ b, length b = 4) bs →
  Forall (λ r, length r = 4) (map (map to_f32) bs).
Proof.
  intros H. apply Forall_forall. intros r Hr.
  apply list_elem_of_In, in_map_iff in Hr as (b & <- & Hb).
  rewrite length_map. rewrite Forall_forall in H.
  by apply H, list_elem_of_In.
Qed.

(** ** The labels *)

Lemma make_labels_bird_only (df : DataFrame) (n : nat) :
  make_labels true df n = Ok (Int64_1d (replicate n 1%Z)).
Proof. reflexivity. Qed.

Lemma make_labels_species (df : DataFrame) (n : nat) (t : Tensor) :
  make_labels false df n = Ok t ↔
  "class_id" ∈ columns df ∧ rows df ≠ [] ∧
  ∃ v, mapM (λ r : Series, r !! "class_id") (rows df) = Some v ∧
       t = Int64_1d (map to_i64 v).
Proof.
  unfold make_labels, column_values, tensor_int64_of_values. split.
  - intros H. destruct (decide _) as [Hin|]; [|discriminate].
    split; [done|].
    destruct (mapM _ (rows df)) as [v|] eqn:Hv; [|discriminate].
    simpl in H. destruct v as [|c v]; [discriminate|].
    injection H as <-. split; [|eauto].
    intros Hr. rewrite Hr in Hv. discriminate.
  - intros (Hin & Hne & v & Hv & ->). rewrite decide_True by done.
    rewrite Hv. simpl. destruct v as [|c v]; [|done].
    apply length_mapM in Hv. by destruct (rows df).
Qed.


Lemma make_labels_length (bird_only : bool) (df : DataFrame) (t : Tensor) :
  make_labels bird_only df (Pandas.len df) = Ok t →
  ∃ v, t = Int64_1d v ∧ length v = Pandas.len df.
Proof.
  destruct bird_only.
  - intros [= <-]. eexists. split; [done|]. apply length_replicate.
  - intros (_ & _ & v & Hv & ->)%make_labels_species.
    eexists. split; [done|]. rewrite length_map. symmetry.
    by apply length_mapM in Hv.
Qed.

Lemma make_labels_returns (bird_only : bool) (df : DataFrame) (n : nat) :
  rows df ≠ [] →
  (returns (make_labels bird_only df n) ↔ labelled bird_only df).
Proof.
  intros Hne. unfold labelled, has_class_ids. destruct bird_only.
  - split; [by left | intros _; eexists; reflexivity].
  - split.
    + intros [t (Hin & _ & v & Hv & _)%make_labels_species]. right.
      split; [done|]. apply mapM_is_Some. by exists v.
    + intros [|[Hin [v Hv]%mapM_is_Some]]; [done|].
      eexists. apply make_labels_species. eauto.
Qed.

(** ** The target *)

(** The target [make_target] returns, and when it returns one: the table
    has at least one row, every row has the four coordinates, and the
    labels can be built. *)
Lemma make_target_spec (bird_only : bool) (idx : Z) (df : DataFrame)
    (t : Target) :
  make_target bird_only idx df = Ok t ↔
  ∃ labels bs,
    make_labels bird_only df (Pandas.len df) = Ok labels ∧
    mapM box_of_row (rows df) = Some bs ∧
    bs ≠ [] ∧
    t = target_dict (box_tensor bs) labels (Int64_1d [idx])
          (Float32_1d (map area_of_row (map (map to_f32) bs)))
          (Int64_1d (replicate (Pandas.len df) 0%Z)).
Proof.
  unfold make_target. split.
  - intros H.
    apply bind_Ok_inv in H as (labels & Hl & H).
    apply bind_Ok_inv in H as (bs & Hbs & H).
    apply append_boxes_all in Hbs.
    destruct (mapM_box_length _ _ Hbs) as [Hlen H4].
    exists labels, bs. split; [done|]. split; [done|].
    destruct bs as [|b bs'].
    { simpl in H. discriminate. }
    split; [done|].
    rewrite as_tensor_float32_boxes in H by done.
    cbn [mbind result_bind Py.bind] in H. unfold box_tensor in H.
    rewrite compute_area_boxes in H by by apply box_tensor_rows.
    cbn [mbind result_bind Py.bind] in H. by injection H as <-.
  - intros (labels & bs & Hl & Hbs & Hne & ->).
    destruct (mapM_box_length _ _ Hbs) as [Hlen H4].
    rewrite Hl. cbn [mbind result_bind Py.bind].
    apply append_boxes_all in Hbs. rewrite Hbs.
    cbn [mbind result_bind Py.bind].
    rewrite as_tensor_float32_boxes by done.
    cbn [mbind result_bind Py.bind]. unfold box_tensor.
    rewrite compute_area_boxes by by apply box_tensor_rows.
    reflexivity.
Qed.

(** [make_target] returns exactly for the tables with at least one row
    whose rows have the coordinates, and whose labels can be built. *)
Lemma make_target_returns (bird_only : bool) (idx : Z) (df : DataFrame) :
  returns (make_target bird_only idx df) ↔
  rows df ≠ [] ∧ has_boxes df ∧ labelled bird_only df.
Proof.
  split.
  - intros [t (labels & bs & Hl & Hbs & Hne & _)%make_target_spec].
    split; [|split].
    + intros Hr. rewrite Hr in Hbs. simpl in Hbs. by injection Hbs as <-.
    + apply has_boxes_mapM. by exists bs.
    + apply (make_labels_returns _ _ (Pandas.len df)); [|by exists labels].
      intros Hr. rewrite Hr in Hbs. simpl in Hbs. by injection Hbs as <-.
  - intros (Hne & [bs Hbs]%has_boxes_mapM & Hlab).
    apply (make_labels_returns _ _ (Pandas.len df) Hne) in Hlab as [labels Hl].
    eexists. apply make_target_spec. exists labels, bs.
    split; [done|]. split; [done|]. split; [|done].
    intros ->. apply length_mapM in Hbs. by destruct (rows df).
Qed.



(** ** [__getitem__] *)

Section DataloaderProperties.

Context {Image : Type}.
Variable convert_RGB : Image → Image.

Implicit Types (self : @ObjectDetectionDataset Image).
Implicit Types (fs : gmap string (@file Image)).

(** Once the image and the table are loaded, [__getitem__] is the
    construction of the target followed by the optional transform. *)
Lemma getitem_loaded self fs idx img df :
  loads self fs idx img df →
  __getitem__ convert_RGB self fs idx =
  target ← make_target (_bird_only self) idx df;
  match _transform self with
  | Some transform => transform (convert_RGB img) target
  | None => Ok (convert_RGB img, target)
  end.
Proof.
  intros (p & q & Hp & Hq & Hi & Hd). unfold __getitem__.
  rewrite Hp, Hq. cbn [mbind result_bind Py.bind].
  unfold Image_open, csv_to_df. rewrite Hi, Hd. reflexivity.
Qed.

(** A returned pair comes from a loaded image and table. *)
Lemma getitem_Ok_loads self fs idx r :
  __getitem__ convert_RGB self fs idx = Ok r →
  ∃ img df, loads self fs idx img df.
Proof.
  unfold __getitem__, loads. intros H.
  apply bind_Ok_inv in H as (p & Hp & H).
  apply bind_Ok_inv in H as (q & Hq & H).
  apply bind_Ok_inv in H as (image & Hi & H).
  apply bind_Ok_inv in H as (df & Hd & H).
  apply fmap_Ok_inv in Hi as (img & Hi & ->).
  unfold Image_open in Hi. unfold csv_to_df in Hd.
  destruct (fs !! p) as [[img'|?|?]|] eqn:Ep; try discriminate.
  destruct (fs !! q) as [[?|df'|?]|] eqn:Eq; try discriminate.
  injection Hi as ->. injection Hd as ->.
  exists img, df, p, q. done.
Qed.

(** What a returned pair is made of. *)
Lemma getitem_Ok_inv self fs idx img df image target :
  loads self fs idx img df →
  __getitem__ convert_RGB self fs idx = Ok (image, target) →
  ∃ target0,
    make_target (_bird_only self) idx df = Ok target0 ∧
    returned_from (_transform self) (convert_RGB img) target0 image target.
Proof.
  intros Hl H. rewrite (getitem_loaded _ _ _ _ _ Hl) in H.
  apply bind_Ok_inv in H as (target0 & Ht & H).
  exists target0. split; [done|]. unfold returned_from.
  destruct (_transform self); [done|]. by injection H as <- <-.
Qed.

(** Without a transform, and on a table with at least one row whose
    rows have the coordinates and whose labels can be built,
    [__getitem__] returns. *)
Lemma getitem_returns self fs idx img df :
  loads self fs idx img df →
  _transform self = None →
  rows df ≠ [] → has_boxes df → labelled (_bird_only self) df →
  returns (__getitem__ convert_RGB self fs idx).
Proof.
  intros Hl Ht Hne Hb Hlab.
  destruct (proj2 (make_target_returns (_bird_only self) idx df))
    as [t Hmk]; [done|].
  rewrite (getitem_loaded _ _ _ _ _ Hl), Hmk, Ht.
  eexists. reflexivity.
Qed.

End DataloaderProperties.

(** ** The entries of the target *)

Section TargetDict.

Variables boxes labels image_id area iscrowd : Tensor.

Lemma target_dict_boxes :
  target_dict boxes labels image_id area iscrowd !! "boxes" = Some boxes.
Proof. reflexivity. Qed.

Lemma target_dict_labels :
  target_dict boxes labels image_id area iscrowd !! "labels" = Some labels.
Proof. reflexivity. Qed.

Lemma target_dict_image_id :
  target_dict boxes labels image_id area iscrowd !! "image_id"
  = Some image_id.
Proof. reflexivity. Qed.

Lemma target_dict_area :
  target_dict boxes labels image_id area iscrowd !! "area" = Some area.
Proof. reflexivity. Qed.

Lemma target_dict_iscrowd :
  target_dict boxes labels image_id area iscrowd !! "iscrowd"
  = Some iscrowd.
Proof. reflexivity. Qed.

Lemma target_dict_keys :
  dom (target_dict boxes labels image_id area iscrowd)
  = ({["boxes"; "labels"; "image_id"; "area"; "iscrowd"]} : gset string).
Proof. unfold target_dict. rewrite !dom_insert_L, dom_empty_L. set_solver. Qed.

End TargetDict.

Lemma make_target_sizes (bird_only : bool) (idx : Z) (df : DataFrame)
    (t : Target) :
  make_target bird_only idx df = Ok t → sizes_match df t.
Proof.
  intros (labels & bs & Hl & Hbs & Hne & ->)%make_target_spec.
  destruct (make_labels_length _ _ _ Hl) as (v & -> & Hv).
  destruct (mapM_box_length _ _ Hbs) as [Hlen H4].
  exists v, (map (map to_f32) bs).
  rewrite target_dict_labels, target_dict_boxes. unfold box_tensor.
  split; [done|]. split; [done|]. split; [done|].
  split; [by rewrite length_map | by apply box_tensor_rows].
Qed.

Lemma make_target_all_birds (idx : Z) (df : DataFrame) (t : Target) :
  make_target true idx df = Ok t → all_birds df t.
Proof.
  intros (labels & bs & Hl & _ & _ & ->)%make_target_spec.
  injection Hl as <-. exists (replicate (Pandas.len df) 1%Z).
  rewrite target_dict_labels. split; [done|].
  split; [apply length_replicate|].
  apply Forall_forall. by intros x [-> _]%elem_of_replicate.
Qed.


(** ** Bird-only mode does not read the class ids *)

Lemma same_but_class_id_len (df1 df2 : DataFrame) :
  same_but_class_id df1 df2 → Pandas.len df1 = Pandas.len df2.
Proof. intros [_ H]. by eapply Forall2_length. Qed.

Lemma same_but_class_id_iloc (df1 df2 : DataFrame) (i : nat) (c : string) :
  same_but_class_id df1 df2 → c ≠ "class_id" →
  iloc df1 i c = iloc df2 i c.
Proof.
  intros [_ H] Hc. unfold iloc.
  destruct (rows df1 !! i) as [r1|] eqn:E1.
  - destruct (Forall2_lookup_l _ _ _ _ _ H E1) as (r2 & -> & Hr).
    assert (r1 !! c = r2 !! c) as ->; [|done].
    rewrite <- (lookup_delete_ne r1 "class_id" c) by done.
    rewrite Hr. by apply lookup_delete_ne.
  - destruct (rows df2 !! i) as [r2|] eqn:E2; [|done].
    destruct (Forall2_lookup_r _ _ _ _ _ H E2) as (r1 & Hr1 & _).
    congruence.
Qed.

Lemma same_but_class_id_boxes (df1 df2 : DataFrame) (range : list nat)
    (acc : list (list num)) :
  same_but_class_id df1 df2 →
  append_boxes df1 range acc = append_boxes df2 range acc.
Proof.
  intros H. revert acc. induction range as [|i range IH]; intros acc; [done|].
  simpl. rewrite !(same_but_class_id_iloc df1 df2) by done.
  destruct (iloc df2 i "xmin") as [x_1|]; [|done].
  destruct (iloc df2 i "ymin") as [y_1|]; [|done].
  destruct (iloc df2 i "xmax") as [x_2|]; [|done].
  destruct (iloc df2 i "ymax") as [y_2|]; [|done].
  simpl. apply IH.
Qed.

(** In bird-only mode the result of the construction, target or
    exception, is the same for two tables that differ in class ids
    only. *)
Lemma bird_only_ignores_class_ids (idx : Z) (df1 df2 : DataFrame) :
  same_but_class_id df1 df2 →
  make_target true idx df1 = make_target true idx df2.
Proof.
  intros H. unfold make_target.
  rewrite (same_but_class_id_len _ _ H).
  rewrite !make_labels_bird_only. cbn [mbind result_bind Py.bind].
  by rewrite (same_but_class_id_boxes df1 df2).
Qed.

(* ===================================================================== *)
(** * The detection dataset adapter: stated properties *)
(* ===================================================================== *)

Section DatasetAdapter.

Context {Image : Type}.
Variable convert_RGB : Image → Image.

Implicit Types (self : @ObjectDetectionDataset Image).
Implicit Types (fs : gmap string (@file Image)).

(** C1, as amended.  For an annotation table [df] with N rows loaded by
    [__getitem__], the target that [__getitem__] constructs has a label
    vector of length N and a box array of N rows of four elements.  This
    target is the one returned when no transform is supplied; a supplied
    transform receives it and what the transform gives back is
    returned. *)
Theorem constructed_target_sizes self fs idx img df image target :
  loads self fs idx img df →
  __getitem__ convert_RGB self fs idx = Ok (image, target) →
  ∃ target0,
    make_target (_bird_only self) idx df = Ok target0 ∧
    sizes_match df target0 ∧
    returned_from (_transform self) (convert_RGB img) target0 image target.
Proof.
  intros Hl H.
  destruct (getitem_Ok_inv convert_RGB _ _ _ _ _ _ _ Hl H)
    as (target0 & Hmk & Hret).
  exists target0. split; [done|]. split; [|done].
  by eapply make_target_sizes.
Qed.

(** C3, as amended.  In bird-only mode every entry of the label vector
    that [__getitem__] constructs is the bird class id 1, one entry per
    row; a table that differs from the loaded one in class ids only
    gives the same label vector.  The constructed target is returned
    when no transform is supplied and handed to the transform
    otherwise. *)
Theorem constructed_labels_bird_only self fs idx img df image target :
  _bird_only self = true →
  loads self fs idx img df →
  __getitem__ convert_RGB self fs idx = Ok (image, target) →
  ∃ target0,
    make_target true idx df = Ok target0 ∧
    all_birds df target0 ∧
    (∀ df', same_but_class_id df df' →
       ∃ target0', make_target true idx df' = Ok target0' ∧
                   target0' !! "labels" = target0 !! "labels") ∧
    returned_from (_transform self) (convert_RGB img) target0 image target.
Proof.
  intros Hb Hl H.
  destruct (getitem_Ok_inv convert_RGB _ _ _ _ _ _ _ Hl H)
    as (target0 & Hmk & Hret).
  rewrite Hb in Hmk.
  exists target0. split; [done|]. split; [by eapply make_target_all_birds|].
  split; [|done].
  intros df' Hsame. exists target0.
  by rewrite <- (bird_only_ignores_class_ids idx df df').
Qed.

(** C5.  [__getitem__] raises, and returns no pair,
    - with IndexError when the index is out of the range of the image
      paths or of the annotation paths;
    - with the FileNotFoundError of the image path when the image file
      is missing;
    - when the annotation file is missing: with the FileNotFoundError of
      its path once the image is loaded.
    No exception is caught: the exception of the failing call is the
    exception of [__getitem__]. *)
Theorem getitem_failures self fs idx :
  (¬ in_range (_jpg_paths self) idx ∨ ¬ in_range (_csv_paths self) idx →
     __getitem__ convert_RGB self fs idx
     = Raise (IndexError "list index out of range")) ∧
  (∀ image_path target_path,
     Py.getitem (_jpg_paths self) idx = Ok image_path →
     Py.getitem (_csv_paths self) idx = Ok target_path →
     fs !! image_path = None →
     __getitem__ convert_RGB self fs idx
     = Raise (FileNotFoundError image_path)) ∧
  (∀ image_path target_path,
     Py.getitem (_jpg_paths self) idx = Ok image_path →
     Py.getitem (_csv_paths self) idx = Ok target_path →
     fs !! target_path = None →
     raises (__getitem__ convert_RGB self fs idx) ∧
     ∀ img, fs !! image_path = Some (JpegFile img) →
       __getitem__ convert_RGB self fs idx
       = Raise (FileNotFoundError target_path)).
Proof.
  split; [|split].
  - intros Hout. unfold __getitem__.
    destruct (Py.getitem (_jpg_paths self) idx) as [p|e] eqn:Hp.
    + destruct Hout as [Hout|Hout].
      * by apply getitem_Ok_in_range in Hp.
      * by rewrite (getitem_out_of_range _ _ Hout).
    + by rewrite (getitem_Raise_inv _ _ _ Hp).
  - intros p q Hp Hq Hmiss. unfold __getitem__.
    rewrite Hp, Hq. cbn [mbind result_bind Py.bind].
    unfold Image_open. by rewrite Hmiss.
  - intros p q Hp Hq Hmiss. unfold __getitem__.
    rewrite Hp, Hq. cbn [mbind result_bind Py.bind].
    unfold Image_open, csv_to_df. rewrite Hmiss. split.
    + destruct (fs !! p) as [[img|?|?]|]; eexists; reflexivity.
    + by intros img ->.
Qed.

(** C6.  Once the image [img] is loaded and the target [target0] is
    constructed, [__getitem__] returns the result of the transform on
    the pair when a transform was supplied, and the pair itself,
    unmodified, when the transform is None. *)
Theorem getitem_applies_transform self fs idx img df target0 :
  loads self fs idx img df →
  make_target (_bird_only self) idx df = Ok target0 →
  __getitem__ convert_RGB self fs idx =
  match _transform self with
  | Some transform => transform (convert_RGB img) target0
  | None => Ok (convert_RGB img, target0)
  end.
Proof.
  intros Hl Hmk. by rewrite (getitem_loaded convert_RGB _ _ _ _ _ Hl), Hmk.
Qed.


End DatasetAdapter.

(** C2.  Whenever [__getitem__] builds the target of a table (lines 29-57,
    [make_target], which needs at least one row), the area entry of every
    row is (xmax - xmin) * (ymax - ymin), the width of its box times the
    height, on the float32 coordinates of the box tensor and in float32
    arithmetic; there is one area per row. *)
Theorem area_equals_width_times_height (bird_only : bool) (idx : Z)
    (df : DataFrame) (t : Target) :
  make_target bird_only idx df = Ok t →
  rows df ≠ [] ∧ area_is_width_times_height df t.
Proof.
  intros H. split.
  { apply (make_target_returns bird_only idx df). by exists t. }
  apply make_target_spec in H as (labels & bs & Hl & Hbs & Hne & ->).
  destruct (mapM_box_length _ _ Hbs) as [Hlen H4].
  eexists. rewrite target_dict_area. split; [done|].
  split; [by rewrite !length_map|].
  intros i r Hr. apply mapM_Some in Hbs.
  destruct (Forall2_lookup_l _ _ _ _ _ Hbs Hr) as (b & Hb & Hrb).
  apply box_of_row_inv in Hrb
    as (x_1 & y_1 & x_2 & y_2 & H1 & H2 & H3 & H4' & ->).
  exists x_1, y_1, x_2, y_2. repeat (split; [done|]).
  change (map area_of_row (map (map to_f32) bs))
    with (area_of_row <$> ((map to_f32) <$> bs)).
  rewrite !list_lookup_fmap, Hb. simpl. f_equal. apply area_of_row_box.
Qed.

(** C4.  Whenever [__getitem__] builds the target of a table, its
    ["iscrowd"] entry has one element per annotation row and every element
    is zero. *)
Theorem iscrowd_is_zero (bird_only : bool) (idx : Z) (df : DataFrame)
    (t : Target) :
  make_target bird_only idx df = Ok t → iscrowd_all_zero df t.
Proof.
  intros (labels & bs & _ & _ & _ & ->)%make_target_spec.
  eexists. rewrite target_dict_iscrowd. split; [done|].
  split; [apply length_replicate|].
  apply Forall_forall. by intros x [-> _]%elem_of_replicate.
Qed.

(** C10.  [__len__] is the length of the image-path list, whatever the
    annotation-path list is; [__init__] stores both lists as given, of
    equal length or not; and there is a data set with an index below its
    length that has no annotation path, where [__getitem__] raises
    IndexError. *)
Theorem len_counts_images_only :
  (∀ (Image : Type) (jpg_paths csv_paths csv_paths' : list string)
     (transform : option (@Transform Image)) (bird_only : bool),
     __len__ (__init__ jpg_paths csv_paths transform bird_only)
     = Py.len jpg_paths ∧
     __len__ (__init__ jpg_paths csv_paths' transform bird_only)
     = __len__ (__init__ jpg_paths csv_paths transform bird_only) ∧
     _jpg_paths (__init__ jpg_paths csv_paths transform bird_only)
     = jpg_paths ∧
     _csv_paths (__init__ jpg_paths csv_paths transform bird_only)
     = csv_paths) ∧
  (__len__ Demo.unpaired = 2%Z ∧
   Py.len (_csv_paths Demo.unpaired) = 1%Z ∧
   Py.getitem (_csv_paths Demo.unpaired) 1
   = Raise (IndexError "list index out of range") ∧
   __getitem__ Demo.convert_RGB Demo.unpaired Demo.fs 1
   = Raise (IndexError "list index out of range")).
Proof.
  split.
  - intros. repeat split.
  - repeat split.
Qed.

(** ** The properties on the small data set *)

Lemma demo_loads_a ds :
  _jpg_paths ds = ["a.jpg"; "b.jpg"] → _csv_paths ds = ["a.csv"; "b.csv"] →
  loads ds Demo.fs 0 (Demo.Picture "L" "a") Demo.two_birds.
Proof. intros Hj Hc. exists "a.jpg", "a.csv". rewrite Hj, Hc. repeat split. Defined.

Lemma demo_loads_b ds :
  _jpg_paths ds = ["a.jpg"; "b.jpg"] → _csv_paths ds = ["a.csv"; "b.csv"] →
  loads ds Demo.fs 1 (Demo.Picture "RGB" "b") Demo.no_birds.
Proof. intros Hj Hc. exists "b.jpg", "b.csv". rewrite Hj, Hc. repeat split. Defined.

(** The areas of the two boxes, 100 by 50 and 4099 by 4099: the float32
    values nearest to 5000 and to 16801801 (which is 16801800). *)
Example demo_areas :
  (t ← make_target true 0 Demo.two_birds; Ok (t !! "area"))
  = Ok (Some (Float32_1d [to_f32 (NpInt64 5000);
                          to_f32 (NpInt64 16801801)])) ∧
  to_f32 (NpInt64 16801801) = to_f32 (NpInt64 16801800).
Proof. split; vm_compute; reflexivity. Qed.

(** The species labels are the class ids of the rows. *)
Example demo_species_labels :
  (t ← make_target false 0 Demo.two_birds; Ok (t !! "labels"))
  = Ok (Some (Int64_1d [7%Z; 3%Z])).
Proof. vm_compute. reflexivity. Qed.

(** Other class ids, same target in bird-only mode. *)
Example demo_relabelled :
  same_but_class_id Demo.two_birds Demo.two_birds_relabelled ∧
  make_target true 0 Demo.two_birds_relabelled
  = make_target true 0 Demo.two_birds.
Proof.
  assert (H : same_but_class_id Demo.two_birds Demo.two_birds_relabelled).
  { split; [reflexivity|]. repeat constructor. }
  split; [exact H|]. symmetry. by apply bird_only_ignores_class_ids.
Qed.

(** A negative index counts from the end. *)
Example demo_last_item :
  __getitem__ Demo.convert_RGB Demo.plain Demo.fs (-2)
  = (t ← make_target true (-2) Demo.two_birds;
     Ok (Demo.Picture "RGB" "a", t)).
Proof. vm_compute. reflexivity. Qed.

(** Without a transform the two-box table gives two labels and two
    boxes. *)
Lemma constructed_target_sizes_witness :
  ∃ image target,
    __getitem__ Demo.convert_RGB Demo.plain Demo.fs 0 = Ok (image, target) ∧
    ∃ target0,
      make_target true 0 Demo.two_birds = Ok target0 ∧
      sizes_match Demo.two_birds target0 ∧
      returned_from None (Demo.Picture "RGB" "a") target0 image target.
Proof.
  eexists _, _. split; [vm_compute; reflexivity|].
  apply (constructed_target_sizes Demo.convert_RGB Demo.plain Demo.fs 0
           (Demo.Picture "L" "a") Demo.two_birds).
  - by apply demo_loads_a.
  - vm_compute; reflexivity.
Defined.

(** With a transform that keeps the first box, the returned target of the
    two-row table has one label and one box. *)
Lemma returned_target_sizes_counterexample :
  loads Demo.cropped Demo.fs 0 (Demo.Picture "L" "a") Demo.two_birds ∧
  Pandas.len Demo.two_birds = 2 ∧
  ∃ image target,
    __getitem__ Demo.convert_RGB Demo.cropped Demo.fs 0 = Ok (image, target) ∧
    target !! "labels" = Some (Int64_1d [1%Z]) ∧
    ¬ sizes_match Demo.two_birds target.
Proof.
  split; [by apply demo_loads_a|]. split; [reflexivity|].
  eexists _, _. split; [vm_compute; reflexivity|].
  split; [vm_compute; reflexivity|].
  intros (v & m & Hv & Hlen & _).
  vm_compute in Hv. injection Hv as <-. discriminate Hlen.
Qed.

Lemma constructed_labels_bird_only_witness :
  ∃ image target,
    __getitem__ Demo.convert_RGB Demo.plain Demo.fs 0 = Ok (image, target) ∧
    ∃ target0,
      make_target true 0 Demo.two_birds = Ok target0 ∧
      all_birds Demo.two_birds target0 ∧
      (∀ df', same_but_class_id Demo.two_birds df' →
         ∃ target0', make_target true 0 df' = Ok target0' ∧
                     target0' !! "labels" = target0 !! "labels") ∧
      returned_from None (Demo.Picture "RGB" "a") target0 image target.
Proof.
  eexists _, _. split; [vm_compute; reflexivity|].
  apply (constructed_labels_bird_only Demo.convert_RGB Demo.plain Demo.fs 0
           (Demo.Picture "L" "a") Demo.two_birds).
  - reflexivity.
  - by apply demo_loads_a.
  - vm_compute; reflexivity.
Defined.

(** With a transform that shifts the labels, the returned labels of a
    bird-only data set are 2. *)
Lemma returned_labels_counterexample :
  _bird_only Demo.shifted = true ∧
  loads Demo.shifted Demo.fs 0 (Demo.Picture "L" "a") Demo.two_birds ∧
  ∃ image target,
    __getitem__ Demo.convert_RGB Demo.shifted Demo.fs 0 = Ok (image, target) ∧
    target !! "labels" = Some (Int64_1d [2%Z; 2%Z]) ∧
    ¬ all_birds Demo.two_birds target.
Proof.
  split; [reflexivity|]. split; [by apply demo_loads_a|].
  eexists _, _. split; [vm_compute; reflexivity|].
  split; [vm_compute; reflexivity|].
  intros (v & Hv & _ & Hall).
  vm_compute in Hv. injection Hv as <-.
  apply Forall_cons in Hall as [Hall _]. discriminate Hall.
Qed.

Lemma area_equals_width_times_height_witness :
  ∃ t, make_target false 0 Demo.two_birds = Ok t ∧
       rows Demo.two_birds ≠ [] ∧
       area_is_width_times_height Demo.two_birds t.
Proof.
  eexists. split; [vm_compute; reflexivity|].
  apply (area_equals_width_times_height false 0 Demo.two_birds).
  vm_compute; reflexivity.
Defined.

Lemma iscrowd_is_zero_witness :
  ∃ t, make_target false 0 Demo.two_birds = Ok t ∧
       iscrowd_all_zero Demo.two_birds t.
Proof.
  eexists. split; [vm_compute; reflexivity|].
  apply (iscrowd_is_zero false 0 Demo.two_birds).
  vm_compute; reflexivity.
Defined.

Lemma getitem_applies_transform_witness :
  ∃ target0,
    make_target true 0 Demo.two_birds = Ok target0 ∧
    __getitem__ Demo.convert_RGB Demo.cropped Demo.fs 0
    = Demo.keep_first_box (Demo.Picture "RGB" "a") target0.
Proof.
  eexists. split; [vm_compute; reflexivity|].
  apply (getitem_applies_transform Demo.convert_RGB Demo.cropped Demo.fs 0
           (Demo.Picture "L" "a") Demo.two_birds).
  - by apply demo_loads_a.
  - vm_compute; reflexivity.
Defined.


(** In species mode the header-only table makes the labels fail with
    TypeError: the box list is never built and the area slice is never
    reached. *)
Lemma empty_table_species_counterexample :
  loads Sample.species Demo.fs 1 (Demo.Picture "RGB" "b") Demo.no_birds ∧
  rows Demo.no_birds = [] ∧
  make_labels (_bird_only Sample.species) Demo.no_birds
    (Pandas.len Demo.no_birds)
  = Raise (TypeError "can't convert np.ndarray of type numpy.object_") ∧
  __getitem__ Demo.convert_RGB Sample.species Demo.fs 1
  = Raise (TypeError "can't convert np.ndarray of type numpy.object_") ∧
  __getitem__ Demo.convert_RGB Sample.species Demo.fs 1
  ≠ Raise (IndexError "too many indices for tensor of dimension 1").
Proof.
  split; [by apply demo_loads_b|]. split; [reflexivity|].
  split; [reflexivity|]. split; [reflexivity|]. discriminate.
Qed.

Lemma getitem_failures_witness :
  __getitem__ Demo.convert_RGB Demo.plain Demo.fs 2
  = Raise (IndexError "list index out of range") ∧
  __getitem__ Demo.convert_RGB Demo.plain (delete "a.jpg" Demo.fs) 0
  = Raise (FileNotFoundError "a.jpg") ∧
  __getitem__ Demo.convert_RGB Demo.plain (delete "a.csv" Demo.fs) 0
  = Raise (FileNotFoundError "a.csv").
Proof.
  split; [|split].
  - apply (getitem_failures Demo.convert_RGB Demo.plain Demo.fs 2).
    left. unfold in_range. simpl. lia.
  - by apply (getitem_failures Demo.convert_RGB Demo.plain
                (delete "a.jpg" Demo.fs) 0) with (target_path := "a.csv").
  - by apply (getitem_failures Demo.convert_RGB Demo.plain
                (delete "a.csv" Demo.fs) 0)
      with (image_path := "a.jpg") (img := Demo.Picture "L" "a").
Defined.

(* ===================================================================== *)
(** * The optimizer factory *)
(* ===================================================================== *)

Lemma comprehension_filter (ps : list Sgd.Param) :
  Sgd.comprehension ps
  = filter (λ p : Sgd.Param, Sgd.requires_grad p = true) ps.
Proof.
  induction ps as [|p ps IH]; [done|]. simpl.
  destruct (Sgd.requires_grad p) eqn:Hp.
  - rewrite filter_cons_True by done. by rewrite IH.
  - rewrite filter_cons_False by (rewrite Hp; discriminate). done.
Qed.

Lemma torch_optim_SGD_Ok_inv (ps : list Sgd.Param)
    (lr momentum weight_decay : float64) (opt : Sgd.SGD) :
  Sgd.torch_optim_SGD ps lr momentum weight_decay = Ok opt →
  opt = {| Sgd.params := ps; Sgd.lr := lr; Sgd.momentum := momentum;
           Sgd.dampening := zero64; Sgd.weight_decay := weight_decay;
           Sgd.nesterov := false |} ∧
  ps ≠ [] ∧ accepted lr momentum weight_decay.
Proof.
  unfold Sgd.torch_optim_SGD, accepted. intros H.
  destruct (SFltb lr _); [discriminate|].
  destruct (SFltb momentum _); [discriminate|].
  destruct (SFltb weight_decay _); [discriminate|].
  destruct ps; [discriminate|]. by injection H as <-.
Qed.

Lemma torch_optim_SGD_accepts (ps : list Sgd.Param)
    (lr momentum weight_decay : float64) :
  ps ≠ [] → accepted lr momentum weight_decay →
  Sgd.torch_optim_SGD ps lr momentum weight_decay
  = Ok {| Sgd.params := ps; Sgd.lr := lr; Sgd.momentum := momentum;
          Sgd.dampening := zero64; Sgd.weight_decay := weight_decay;
          Sgd.nesterov := false |}.
Proof.
  unfold Sgd.torch_optim_SGD. intros Hne (-> & -> & ->). by destruct ps.
Qed.

(** C7.  [get_sgd_optim] passes to the optimizer exactly the parameters of
    the model whose [requires_grad] is true, in their original order, with
    the given learning rate, momentum and weight decay (the defaults 0.9
    and 0.0005 when left out); the optimizer it returns holds these
    parameters and these hyperparameters; and it returns one whenever the
    library accepts the hyperparameters and some parameter is
    trainable. *)
Theorem get_sgd_optim_trainable (model : Sgd.Model) (lr : float64)
    (momentum weight_decay : option float64) :
  Sgd.get_sgd_optim model lr momentum weight_decay
  = Sgd.torch_optim_SGD (trainable model) lr
      (default Sgd.default_momentum momentum)
      (default Sgd.default_weight_decay weight_decay) ∧
  trainable model `sublist_of` Sgd.parameters model ∧
  (∀ p, p ∈ trainable model ↔
        p ∈ Sgd.parameters model ∧ Sgd.requires_grad p = true) ∧
  (∀ opt, Sgd.get_sgd_optim model lr momentum weight_decay = Ok opt →
     Sgd.params opt = trainable model ∧
     Sgd.lr opt = lr ∧
     Sgd.momentum opt = default Sgd.default_momentum momentum ∧
     Sgd.weight_decay opt = default Sgd.default_weight_decay weight_decay) ∧
  (trainable model ≠ [] →
   accepted lr (default Sgd.default_momentum momentum)
               (default Sgd.default_weight_decay weight_decay) →
   returns (Sgd.get_sgd_optim model lr momentum weight_decay)).
Proof.
  assert (Heq : Sgd.get_sgd_optim model lr momentum weight_decay
                = Sgd.torch_optim_SGD (trainable model) lr
                    (default Sgd.default_momentum momentum)
                    (default Sgd.default_weight_decay weight_decay)).
  { unfold Sgd.get_sgd_optim, trainable. by rewrite comprehension_filter. }
  split; [done|]. split; [apply sublist_filter|].
  split; [intros p; unfold trainable; by rewrite list_elem_of_filter, (comm and)|].
  split.
  - intros opt Hopt. rewrite Heq in Hopt.
    by apply torch_optim_SGD_Ok_inv in Hopt as (-> & _ & _).
  - intros Hne Hacc. rewrite Heq, torch_optim_SGD_accepts by done.
    eexists. reflexivity.
Qed.

Lemma get_sgd_optim_trainable_witness :
  returns (Sgd.get_sgd_optim Demo.detector Demo.l_r None None) ∧
  ∀ opt, Sgd.get_sgd_optim Demo.detector Demo.l_r None None = Ok opt →
    Sgd.params opt = [Demo.head_weight; Demo.head_bias] ∧
    Sgd.lr opt = Demo.l_r ∧
    Sgd.momentum opt = Sgd.default_momentum ∧
    Sgd.weight_decay opt = Sgd.default_weight_decay.
Proof.
  split.
  - apply (get_sgd_optim_trainable Demo.detector Demo.l_r None None).
    + vm_compute. discriminate.
    + repeat split.
  - apply (get_sgd_optim_trainable Demo.detector Demo.l_r None None).
Defined.

(* ===================================================================== *)
(** * The configuration *)
(* ===================================================================== *)

(** The module body runs to its end, with or without a GPU. *)
Lemma load_returns (cuda_is_available : bool) :
  returns (Config.load cuda_is_available).
Proof. destruct cuda_is_available; eexists; vm_compute; reflexivity. Qed.

(** Some of the names it binds. *)
Example load_names :
  (cfg ← Config.load false;
   Ok (cfg !! "DETECTOR_PATH", cfg !! "DEVICE", cfg !! "SEED",
       cfg !! "TILED_IMG_PATH"))
  = Ok (Some (Config.VStr "./database/models/bird_only/"),
        Some (Config.VDevice "cpu"),
        Some (Config.VInt 2023),
        Some (Config.VStr "./database/detection/tiled_data/images/")).
Proof. vm_compute. reflexivity. Qed.

Example load_CONFIG :
  (cfg ← Config.load true;
   match cfg !! "CONFIG" with
   | Some CONFIG =>
       model ← Config.subscript CONFIG "model";
       batch_size ← Config.subscript CONFIG "batch_size";
       Ok (model, batch_size)
   | None => Raise (KeyError "CONFIG")
   end)
  = Ok (Config.VTuple [Config.VStr "bird_only"; Config.VInt 2],
        Config.VInt 1).
Proof. vm_compute. reflexivity. Qed.

Section Configuration.

Context {Image Figure Colormap : Type}.
Variable SAVE_FIG : bool.
Variable convert_RGB : Image → Image.
Variable bar_chart :
  DataFrame → string → string * string * string → Z → option Z →
  result Figure.
Variable boxes_chart : Image → DataFrame → result Figure.
Variable curves_chart :
  list float64 → list float64 → string → result Figure.
Variable precision_recall_chart :
  list (list float64) → list Z → string → result Figure.
Variable image_chart : Image → result Figure.
Variable draw_bounding_boxes : Image → Target → float64 → result Image.
Variable rasterise : Figure → Image.
Variable plt_cm_get_cmap : string → Z → Colormap.

Local Abbreviation exec :=
  (exec SAVE_FIG convert_RGB bar_chart boxes_chart curves_chart
     precision_recall_chart image_chart draw_bounding_boxes rasterise
     plt_cm_get_cmap).
Local Abbreviation run :=
  (run SAVE_FIG convert_RGB bar_chart boxes_chart curves_chart
     precision_recall_chart image_chart draw_bounding_boxes rasterise
     plt_cm_get_cmap).

Implicit Types (s : @State Image).

(** The building blocks keep the configuration. *)

Lemma ret_keeps_config {A} (a : A) : keeps_config (@ret Image A a).
Proof. by intros s. Qed.

Lemma pure_keeps_config {A} (r : result A) : keeps_config (@pure Image A r).
Proof. by intros s. Qed.

Lemma reading_keeps_config {A} (f : gmap string (@file Image) → result A) :
  keeps_config (reading f).
Proof. by intros s. Qed.

Lemma writing_keeps_config (fname : string) (content : @file Image) :
  keeps_config (writing fname content).
Proof. by intros s. Qed.

Lemma bind_keeps_config {A B} (m : @Run Image A) (k : A → @Run Image B) :
  keeps_config m → (∀ a, keeps_config (k a)) → keeps_config (bind m k).
Proof.
  intros Hm Hk s. unfold bind. specialize (Hm s).
  destruct (m s) as [s' [a|e]]; simpl in *; [|done].
  by rewrite Hk.
Qed.

Lemma savefig_keeps_config (fname : string) (content : @file Image) :
  keeps_config (savefig SAVE_FIG fname content).
Proof.
  unfold savefig. destruct SAVE_FIG;
    [apply writing_keeps_config | apply ret_keeps_config].
Qed.

Lemma void_keeps_config {A} (m : @Run Image A) :
  keeps_config m → keeps_config (void m).
Proof.
  intros Hm. apply bind_keeps_config; [done|].
  intros _. apply ret_keeps_config.
Qed.

(** Closes [keeps_config] goals on computations made of the blocks. *)
Ltac keeps :=
  repeat first
    [ apply ret_keeps_config | apply pure_keeps_config
    | apply reading_keeps_config | apply writing_keeps_config
    | apply savefig_keeps_config
    | apply void_keeps_config
    | apply bind_keeps_config; [|intros ?] ].

(** Every function of the repository keeps the configuration. *)
Lemma exec_keeps_config (c : call) : keeps_config (exec c).
Proof.
  destruct c; simpl;
    unfold plot_distribution, plot_boxes, plot_training_curves,
      plot_precision_recall, visualize_predictions, show,
      plot_confusion_matrix;
    try match goal with info : (_ * _ * _)%type |- _ =>
          destruct info as [[??] ?] end;
    keeps.
Qed.

(** So does any sequence of calls. *)
Lemma run_keeps_config (cs : list call) s : config (run cs s) = config s.
Proof.
  revert s. induction cs as [|c cs IH]; intros s; [done|].
  simpl. rewrite IH. apply exec_keeps_config.
Qed.

(** C8.  The configuration (CONFIG, HYPERPARAMS, the path constants,
    DESC_MAPPING, ON_DELETE and the other names of [config.py]) is built
    once, when the module is loaded at process start, and every operation
    of the repository leaves it unchanged: after any call, and after any
    sequence of calls, the configuration is the one that was loaded. *)
Theorem configuration_is_read_only (cuda_is_available : bool)
    (fs : gmap string (@file Image)) :
  ∃ cfg,
    Config.load cuda_is_available = Ok cfg ∧
    boot cuda_is_available fs = Ok {| config := cfg; files := fs |} ∧
    (∀ (c : call) s, config (fst (exec c s)) = config s) ∧
    (∀ cs : list call,
       config (run cs {| config := cfg; files := fs |}) = cfg).
Proof.
  destruct (load_returns cuda_is_available) as [cfg Hcfg].
  exists cfg. split; [done|]. split; [|split].
  - unfold boot. by rewrite Hcfg.
  - intros c. apply exec_keeps_config.
  - intros cs. by rewrite run_keeps_config.
Qed.

End Configuration.

(* ===================================================================== *)
(** * Further properties of the detection dataset adapter *)
(* ===================================================================== *)

(** ** Helper facts *)

Lemma drop_cons_inv {A} (l : list A) (s : nat) (x : A) (l' : list A) :
  drop s l = x :: l' → l !! s = Some x ∧ drop (S s) l = l'.
Proof.
  intros H. split.
  - rewrite <- (Nat.add_0_r s), <- lookup_drop, H. done.
  - rewrite <- (Nat.add_1_l s), Nat.add_comm, <- drop_drop, H. done.
Qed.

Lemma first_missing_None (r : Series) :
  first_missing r = None ↔ is_Some (box_of_row r).
Proof.
  unfold first_missing, box_of_row.
  destruct (r !! "xmin"), (r !! "ymin"), (r !! "xmax"), (r !! "ymax");
    simpl; split; (done || by intros [? ?] || eauto).
Qed.

(** The loop stops at the first row that lacks a coordinate, with the
    KeyError of the first column it lacks. *)
Lemma append_boxes_KeyError (df : DataFrame) (good : list Series)
    (r : Series) (rest : list Series) (c : string) (s n : nat)
    (acc : list (list num)) :
  drop s (rows df) = good ++ r :: rest →
  s + n = length (rows df) →
  Forall (λ g, is_Some (box_of_row g)) good →
  first_missing r = Some c →
  append_boxes df (seq s n) acc = Raise (KeyError c).
Proof.
  revert s n acc.
  induction good as [|g good IH]; intros s n acc Hdrop Hlen Hgood Hmiss.
  - simpl in Hdrop. apply drop_cons_inv in Hdrop as [Hr _].
    pose proof (lookup_lt_Some _ _ _ Hr) as Hlt.
    destruct n as [|n]; [lia|]. simpl.
    rewrite !(iloc_row _ _ _ _ Hr).
    unfold first_missing in Hmiss.
    destruct (r !! "xmin"), (r !! "ymin"), (r !! "xmax"), (r !! "ymax");
      simplify_eq; reflexivity.
  - simpl in Hdrop. apply drop_cons_inv in Hdrop as [Hg Hdrop].
    pose proof (lookup_lt_Some _ _ _ Hg) as Hlt.
    destruct n as [|n]; [lia|].
    apply Forall_cons in Hgood as [[b Hb] Hgood].
    apply box_of_row_inv in Hb
      as (x_1 & y_1 & x_2 & y_2 & H1 & H2 & H3 & H4 & ->).
    simpl. rewrite !(iloc_row _ _ _ _ Hg), H1, H2, H3, H4. simpl.
    apply (IH (S s)); [done | lia | done | done].
Qed.

(** The result for another index differs in the image id only. *)
Lemma make_target_image_id (bird_only : bool) (idx idx' : Z)
    (df : DataFrame) :
  make_target bird_only idx' df
  = (λ t : Target, <["image_id" := Int64_1d [idx']]> t)
      <$> make_target bird_only idx df.
Proof.
  unfold make_target.
  destruct (make_labels _ _ _) as [labels|e]; [|done]. simpl.
  destruct (append_boxes _ _ _) as [bs|e]; [|done]. simpl.
  destruct (as_tensor_float32 bs) as [boxes|e]; [|done]. simpl.
  destruct (compute_area boxes) as [area|e]; [|done]. simpl.
  reflexivity.
Qed.

(** ** What the target holds *)

(** X1.  Whenever the target of a table is built, row [i] of its box
    array is [[xmin; ymin; xmax; ymax]] of annotation row [i], in this
    column order and in the order of the rows, each coordinate converted
    to float32. *)
Theorem boxes_follow_rows (bird_only : bool) (idx : Z) (df : DataFrame)
    (t : Target) :
  make_target bird_only idx df = Ok t → boxes_are_rows df t.
Proof.
  intros (labels & bs & Hl & Hbs & Hne & ->)%make_target_spec.
  destruct (mapM_box_length _ _ Hbs) as [Hlen H4].
  exists (map (map to_f32) bs). rewrite target_dict_boxes.
  split; [done|]. split; [by rewrite length_map|].
  intros i r Hr. apply mapM_Some in Hbs.
  destruct (Forall2_lookup_l _ _ _ _ _ Hbs Hr) as (b & Hb & Hrb).
  apply box_of_row_inv in Hrb
    as (x_1 & y_1 & x_2 & y_2 & H1 & H2 & H3 & H4' & ->).
  exists x_1, y_1, x_2, y_2. repeat (split; [done|]).
  change (map (map to_f32) bs) with ((map to_f32) <$> bs).
  by rewrite list_lookup_fmap, Hb.
Qed.

(** X2.  A target that is built has exactly the five keys boxes, labels,
    image_id, area and iscrowd, and its image id is the one-element
    tensor of the index as it was given (a negative index is kept
    negative). *)
Theorem target_keys_and_image_id (bird_only : bool) (idx : Z)
    (df : DataFrame) (t : Target) :
  make_target bird_only idx df = Ok t →
  dom t = target_keys ∧ t !! "image_id" = Some (Int64_1d [idx]).
Proof.
  intros (labels & bs & _ & _ & _ & ->)%make_target_spec.
  split; [apply target_dict_keys | apply target_dict_image_id].
Qed.




(** The rows of a table bind the labels of its header and no other. *)
Lemma series_lookup_is_Some (columns : list string) (record : list num)
    (c : string) :
  is_Some (series columns record !! c) ↔ c ∈ columns.
Proof.
  unfold series.
  set (cells := record ++ replicate (length columns - length record) nan).
  assert (Hfst : (zip columns cells).*1 = columns).
  { apply fst_zip. unfold cells. rewrite length_app, length_replicate. lia. }
  split.
  - intros [x Hx]. apply elem_of_list_to_map_2 in Hx.
    rewrite <- Hfst. apply list_elem_of_fmap. by exists (c, x).
  - intros Hin.
    destruct (list_to_map (zip columns cells) !! c) as [x|] eqn:E; [by exists x|].
    apply not_elem_of_list_to_map in E. rewrite Hfst in E. done.
Qed.

Lemma first_missing_series (columns : list string) (record : list num) :
  first_missing (series columns record) = first_missing_column columns.
Proof.
  unfold first_missing, first_missing_column.
  pose proof (series_lookup_is_Some columns record) as H.
  repeat match goal with
    | |- context [series columns record !! ?c] =>
        let E := fresh "E" in
        destruct (series columns record !! c) eqn:E;
        [ assert (c ∈ columns) by (apply H; by rewrite E)
        | assert (c ∉ columns)
            by (intros [? ?]%H; congruence) ]
    end;
    repeat case_decide; done.
Qed.

(** X4.  When the labels can be built and the table, with at least one
    row, lacks a coordinate column, no target is built: the box loop raises
    at its first row the KeyError of the first column, in the order xmin,
    ymin, xmax, ymax, that the table lacks (a table in the layout x, y,
    width, height raises the KeyError of xmin). *)
Theorem missing_coordinate_KeyError (bird_only : bool) (idx : Z)
    (df : DataFrame) (c : string) :
  labelled bird_only df →
  rows df ≠ [] →
  first_missing_column (columns df) = Some c →
  make_target bird_only idx df = Raise (KeyError c).
Proof.
  intros Hlab Hne Hc.
  apply (make_labels_returns _ _ (Pandas.len df) Hne) in Hlab as [labels Hl].
  unfold make_target. rewrite Hl. cbn [mbind result_bind Py.bind].
  destruct (rows df) as [|r rest] eqn:Hrows; [done|].
  assert (first_missing r = Some c) as Hr.
  { unfold rows in Hrows. destruct (records df) as [|record recs];
      [discriminate|]. injection Hrows as <- _.
    by rewrite first_missing_series. }
  rewrite (append_boxes_KeyError df [] r rest c 0 (Pandas.len df) []);
    [done | by rewrite Hrows | done | constructor | done].
Qed.

(** ** Indexing *)

Lemma getitem_lookup {A} (l : list A) (i : Z) (x : A) :
  Py.getitem l i = Ok x →
  l !! Z.to_nat (if (i <? 0)%Z then i + Z.of_nat (length l) else i)%Z
  = Some x.
Proof.
  unfold Py.getitem. cbv zeta. intros H.
  destruct (_ || _); [discriminate|].
  destruct (l !! _) as [y|]; [|discriminate]. by injection H as ->.
Qed.

Lemma getitem_negative {A} (l : list A) (i : Z) :
  (- Z.of_nat (length l) ≤ i < 0)%Z →
  Py.getitem l (i + Z.of_nat (length l)) = Py.getitem l i.
Proof.
  intros Hi. unfold Py.getitem. cbv zeta.
  assert (H1 : (i + Z.of_nat (length l) <? 0)%Z = false) by lia.
  assert (H2 : (i <? 0)%Z = true) by lia.
  by rewrite H1, H2, H1.
Qed.

Section MoreDatasetAdapter.

Context {Image : Type}.
Variable convert_RGB : Image → Image.

Implicit Types (self : @ObjectDetectionDataset Image).
Implicit Types (fs : gmap string (@file Image)).

(** X5.  Without a transform, [__getitem__] returns a pair exactly when
    both path lists have the index, the image file is an image, the
    annotation file is a table with at least one row, every row has the
    four coordinate columns, and, in species mode, the class-id column is
    there. *)
Theorem getitem_returns_iff self fs idx :
  _transform self = None →
  (returns (__getitem__ convert_RGB self fs idx) ↔
   ∃ img df, loads self fs idx img df ∧
             rows df ≠ [] ∧ has_boxes df ∧ labelled (_bird_only self) df).
Proof.
  intros Hnone. split.
  - intros [[image target] H].
    destruct (getitem_Ok_loads convert_RGB _ _ _ _ H) as (img & df & Hl).
    destruct (getitem_Ok_inv convert_RGB _ _ _ _ _ _ _ Hl H)
      as (target0 & Hmk & _).
    exists img, df. split; [done|].
    apply (make_target_returns (_bird_only self) idx df). by exists target0.
  - intros (img & df & Hl & Hne & Hb & Hlab).
    by apply (getitem_returns convert_RGB self fs idx img df).
Qed.

(** X6.  In species mode an annotation table without a class-id column
    makes [__getitem__] raise KeyError for class_id, whatever its rows and
    whatever the transform: the labels are built before the boxes are
    read. *)
Theorem species_needs_class_id_column self fs idx img df :
  loads self fs idx img df →
  _bird_only self = false →
  "class_id" ∉ columns df →
  __getitem__ convert_RGB self fs idx = Raise (KeyError "class_id").
Proof.
  intros Hl Hb Hcol. rewrite (getitem_loaded convert_RGB _ _ _ _ _ Hl), Hb.
  unfold make_target, make_labels, column_values.
  by rewrite decide_False.
Qed.

(** X7.  In bird-only mode the result of [__getitem__], pair or
    exception, with or without a transform, does not depend on the class
    ids of the annotation file: replacing the file by a table that
    differs in class ids only gives the same result. *)
Theorem bird_only_result_ignores_class_ids self fs idx image_path
    target_path df df' :
  _bird_only self = true →
  Py.getitem (_jpg_paths self) idx = Ok image_path →
  Py.getitem (_csv_paths self) idx = Ok target_path →
  image_path ≠ target_path →
  fs !! target_path = Some (CsvFile df) →
  same_but_class_id df df' →
  __getitem__ convert_RGB self (<[target_path := CsvFile df']> fs) idx
  = __getitem__ convert_RGB self fs idx.
Proof.
  intros Hb Hp Hq Hne Hdf Hsame. unfold __getitem__.
  rewrite Hp, Hq, Hb. cbn [mbind result_bind Py.bind].
  unfold Image_open, csv_to_df.
  rewrite lookup_insert_eq, Hdf.
  rewrite (lookup_insert_ne _ target_path image_path) by congruence.
  destruct (fs !! image_path) as [[img| |]|]; try done.
  cbn [mbind result_bind Py.bind fmap result_fmap].
  by rewrite (bird_only_ignores_class_ids idx df df').
Qed.

(** X8.  With path lists of one length n and no transform, the item at a
    negative index [idx] and the item at [idx + n] are the same image and
    the same target except for the image id, which is the index as given;
    they fail with the same exception. *)
Theorem negative_index_same_item self fs idx :
  _transform self = None →
  length (_jpg_paths self) = length (_csv_paths self) →
  (- Z.of_nat (length (_jpg_paths self)) ≤ idx < 0)%Z →
  __getitem__ convert_RGB self fs (idx + Z.of_nat (length (_jpg_paths self)))
  = (λ p : Image * Target,
       (p.1, <["image_id" :=
                 Int64_1d [(idx + Z.of_nat (length (_jpg_paths self)))%Z]]> p.2))
      <$> __getitem__ convert_RGB self fs idx.
Proof.
  intros Hnone Hlen Hidx. unfold __getitem__.
  rewrite (getitem_negative (_jpg_paths self)) by done.
  rewrite Hlen. rewrite (getitem_negative (_csv_paths self)) by lia.
  rewrite Hnone.
  destruct (Py.getitem (_jpg_paths self) idx) as [p|e]; [|done].
  destruct (Py.getitem (_csv_paths self) idx) as [q|e]; [|done].
  cbn [mbind result_bind Py.bind].
  destruct (Image_open fs p) as [img|e]; [|done].
  destruct (csv_to_df fs q) as [df|e]; [|done]. cbn.
  rewrite (make_target_image_id _ idx (idx + Z.of_nat (length (_csv_paths self)))).
  by destruct (make_target (_bird_only self) idx df).
Qed.

(** X9.  The image and the annotation of an item are taken at one index
    of their lists: for an index from 0 on at the same position, for a
    negative index at the same distance from the end of each list, so at
    the same position only when the lists have the same length. *)
Theorem index_alignment self idx image_path target_path :
  Py.getitem (_jpg_paths self) idx = Ok image_path →
  Py.getitem (_csv_paths self) idx = Ok target_path →
  ∃ i j : nat,
    _jpg_paths self !! i = Some image_path ∧
    _csv_paths self !! j = Some target_path ∧
    ((0 ≤ idx)%Z → i = Z.to_nat idx ∧ j = Z.to_nat idx) ∧
    ((idx < 0)%Z →
       (Z.of_nat i - Z.of_nat j
        = Z.of_nat (length (_jpg_paths self))
          - Z.of_nat (length (_csv_paths self)))%Z).
Proof.
  intros Hp Hq.
  pose proof (getitem_Ok_in_range _ _ _ Hp) as [Hp1 Hp2].
  pose proof (getitem_Ok_in_range _ _ _ Hq) as [Hq1 Hq2].
  apply getitem_lookup in Hp. apply getitem_lookup in Hq.
  eexists _, _. split; [exact Hp|]. split; [exact Hq|].
  destruct (Z.ltb_spec idx 0); split; intros; lia.
Qed.

(** X10.  A transform is applied to the finished pair only: the result
    with a transform is the result without one passed to the transform,
    so a failure of the loading or of the construction of the target is
    the same with every transform, and the exception of a transform is
    the exception of [__getitem__]. *)
Theorem transform_runs_last self fs idx (transform : @Transform Image) :
  __getitem__ convert_RGB (with_transform (Some transform) self) fs idx
  = __getitem__ convert_RGB (with_transform None self) fs idx
      ≫= (λ p, transform p.1 p.2).
Proof.
  unfold __getitem__, with_transform. simpl.
  destruct (Py.getitem (_jpg_paths self) idx) as [p|e]; [|done].
  destruct (Py.getitem (_csv_paths self) idx) as [q|e]; [|done].
  cbn [mbind result_bind Py.bind].
  destruct (Image_open fs p) as [img|e]; [|done].
  destruct (csv_to_df fs q) as [df|e]; [|done]. cbn.
  by destruct (make_target (_bird_only self) idx df).
Qed.

(** X11.  The [species] argument of [get_od_dataloader] becomes the
    [bird_only] flag of the data set: a loader built with [species] true
    and no transform gives items whose labels are all 1, and one built
    with [species] false gives the class ids of the rows. *)
Theorem loader_species_is_bird_only (jpg_paths csv_paths : list string)
    (batch_size : Z) (shuffle species : bool) fs idx img df image target :
  loads (dataset (get_od_dataloader jpg_paths csv_paths None batch_size
                    shuffle species)) fs idx img df →
  __getitem__ convert_RGB
    (dataset (get_od_dataloader jpg_paths csv_paths None batch_size
                shuffle species)) fs idx = Ok (image, target) →
  if species then all_birds df target else labels_are_class_ids df target.
Proof.
  intros Hl H.
  destruct (getitem_Ok_inv convert_RGB _ _ _ _ _ _ _ Hl H)
    as (target0 & Hmk & Hret).
  simpl in Hmk, Hret. destruct Hret as [_ ->].
  destruct species.
  - by eapply make_target_all_birds.
  - apply make_target_spec in Hmk as (labels & bs & Hlab & _ & _ & ->).
    apply make_labels_species in Hlab as (_ & _ & v & Hv & ->).
    exists (map to_i64 v). rewrite target_dict_labels.
    split; [done|]. split.
    { rewrite length_map. symmetry. by apply length_mapM in Hv. }
    intros i r Hr. apply mapM_Some in Hv.
    destruct (Forall2_lookup_l _ _ _ _ _ Hv Hr) as (c & Hc & Hrc).
    exists c. split; [done|].
    change (map to_i64 v) with (to_i64 <$> v).
    by rewrite list_lookup_fmap, Hc.
Qed.

(** X12.  [od_collate_fn] unzips a batch: for a batch that is not empty
    it gives the images and the targets, as many of each as the batch has
    pairs and in the order of the batch, so that zipping them gives the
    batch back; for the empty batch, and only for it, it gives the empty
    tuple. *)
Theorem od_collate_fn_unzips (batch : list (Image * Target)) :
  (od_collate_fn batch = [] ↔ batch = []) ∧
  (batch ≠ [] →
   ∃ images targets,
     od_collate_fn batch = [map inl images; map inr targets] ∧
     length images = length batch ∧ length targets = length batch ∧
     zip images targets = batch).
Proof.
  split.
  - destruct batch; simpl; split; (done || discriminate).
  - intros Hne. exists (batch.*1), (batch.*2).
    split; [|split; [|split]].
    + destruct batch as [|p batch]; [done|]. unfold od_collate_fn.
      by rewrite !map_map.
    + apply length_fmap.
    + apply length_fmap.
    + apply zip_fst_snd.
Qed.

End MoreDatasetAdapter.

(* ===================================================================== *)
(** * Further properties of the optimizer factory *)
(* ===================================================================== *)

Lemma comprehension_app (l1 l2 : list Sgd.Param) :
  Sgd.comprehension (l1 ++ l2)
  = Sgd.comprehension l1 ++ Sgd.comprehension l2.
Proof.
  induction l1 as [|p l1 IH]; [done|]. simpl.
  destruct (Sgd.requires_grad p); by rewrite IH.
Qed.

Lemma comprehension_frozen (l : list Sgd.Param) :
  Forall (λ p, Sgd.requires_grad p = false) l → Sgd.comprehension l = [].
Proof. induction 1 as [|p l Hp _ IH]; [done|]. simpl. by rewrite Hp. Qed.

Lemma comprehension_trainable (l : list Sgd.Param) :
  Forall (λ p, Sgd.requires_grad p = true) l → Sgd.comprehension l = l.
Proof.
  induction 1 as [|p l Hp _ IH]; [done|]. simpl. by rewrite Hp, IH.
Qed.

(** X13.  For a model whose parameters are a frozen part followed by a
    trainable part (a frozen backbone and a head to train), with
    hyperparameters the library accepts, [get_sgd_optim] returns the
    optimizer of the trainable part alone, all of it and in its order. *)
Theorem frozen_part_is_left_out (frozen head : list Sgd.Param)
    (lr momentum weight_decay : float64) :
  Forall (λ p, Sgd.requires_grad p = false) frozen →
  Forall (λ p, Sgd.requires_grad p = true) head →
  head ≠ [] →
  accepted lr momentum weight_decay →
  Sgd.get_sgd_optim {| Sgd.parameters := frozen ++ head |} lr
    (Some momentum) (Some weight_decay)
  = Ok {| Sgd.params := head; Sgd.lr := lr; Sgd.momentum := momentum;
          Sgd.dampening := zero64; Sgd.weight_decay := weight_decay;
          Sgd.nesterov := false |}.
Proof.
  intros Hf Hh Hne Hacc. unfold Sgd.get_sgd_optim. simpl.
  rewrite comprehension_app, (comprehension_frozen _ Hf),
    (comprehension_trainable _ Hh). simpl.
  by apply torch_optim_SGD_accepts.
Qed.

Lemma frozen_part_is_left_out_witness :
  Sgd.get_sgd_optim Demo.detector Demo.l_r
    (Some Sgd.default_momentum) (Some Sgd.default_weight_decay)
  = Ok {| Sgd.params := [Demo.head_weight; Demo.head_bias];
          Sgd.lr := Demo.l_r; Sgd.momentum := Sgd.default_momentum;
          Sgd.dampening := zero64;
          Sgd.weight_decay := Sgd.default_weight_decay;
          Sgd.nesterov := false |}
  ∧ Sgd.get_sgd_optim {| Sgd.parameters := Sample.frozen ++ Sample.head |}
      Demo.l_r (Some Sgd.default_momentum) (Some Sgd.default_weight_decay)
    = Ok {| Sgd.params := Sample.head;
            Sgd.lr := Demo.l_r; Sgd.momentum := Sgd.default_momentum;
            Sgd.dampening := zero64;
            Sgd.weight_decay := Sgd.default_weight_decay;
            Sgd.nesterov := false |}.
Proof.
  split; [vm_compute; reflexivity|].
  apply (frozen_part_is_left_out Sample.frozen Sample.head).
  - repeat constructor.
  - repeat constructor.
  - discriminate.
  - repeat split.
Defined.

(** X14.  [get_sgd_optim] returns an optimizer exactly when some parameter
    of the model is trainable and the library accepts the
    hyperparameters; for a model without a trainable parameter and
    accepted hyperparameters it raises the ValueError of the library for
    an empty parameter list. *)
Theorem get_sgd_optim_returns_iff (model : Sgd.Model) (lr : float64)
    (momentum weight_decay : option float64) :
  (returns (Sgd.get_sgd_optim model lr momentum weight_decay) ↔
   (∃ p, p ∈ Sgd.parameters model ∧ Sgd.requires_grad p = true) ∧
   accepted lr (default Sgd.default_momentum momentum)
               (default Sgd.default_weight_decay weight_decay)) ∧
  (Forall (λ p, Sgd.requires_grad p = false) (Sgd.parameters model) →
   accepted lr (default Sgd.default_momentum momentum)
               (default Sgd.default_weight_decay weight_decay) →
   Sgd.get_sgd_optim model lr momentum weight_decay
   = Raise (ValueError "optimizer got an empty parameter list")).
Proof.
  split.
  - unfold Sgd.get_sgd_optim. cbv zeta. rewrite comprehension_filter. split.
    + intros [opt (-> & Hne & Hacc)%torch_optim_SGD_Ok_inv].
      split; [|done].
      destruct (filter _ _) as [|p l] eqn:Hf; [done|].
      exists p.
      assert (p ∈ filter (λ p, Sgd.requires_grad p = true)
                    (Sgd.parameters model)) as Hp
        by (rewrite Hf; by left).
      by apply list_elem_of_filter in Hp as [? ?].
    + intros [(p & Hin & Hp) Hacc].
      rewrite torch_optim_SGD_accepts; [by eexists| |done].
      intros Hnil.
      assert (p ∈ filter (λ p, Sgd.requires_grad p = true)
                    (Sgd.parameters model)) as Hpin
        by by apply list_elem_of_filter.
      rewrite Hnil in Hpin. by apply elem_of_nil in Hpin.
  - intros Hfrozen (Hlr & Hm & Hwd).
    unfold Sgd.get_sgd_optim. cbv zeta.
    rewrite (comprehension_frozen _ Hfrozen).
    unfold Sgd.torch_optim_SGD. by rewrite Hlr, Hm, Hwd.
Qed.

(* ===================================================================== *)
(** * Further properties of the plotting routines *)
(* ===================================================================== *)

Section Plotting.

Context {Image Figure Colormap : Type}.
Variable convert_RGB : Image → Image.
Variable bar_chart :
  DataFrame → string → string * string * string → Z → option Z →
  result Figure.
Variable boxes_chart : Image → DataFrame → result Figure.
Variable curves_chart :
  list float64 → list float64 → string → result Figure.
Variable precision_recall_chart :
  list (list float64) → list Z → string → result Figure.
Variable image_chart : Image → result Figure.
Variable draw_bounding_boxes : Image → Target → float64 → result Image.
Variable rasterise : Figure → Image.
Variable plt_cm_get_cmap : string → Z → Colormap.

Local Abbreviation exec SAVE_FIG :=
  (exec SAVE_FIG convert_RGB bar_chart boxes_chart curves_chart
     precision_recall_chart image_chart draw_bounding_boxes rasterise
     plt_cm_get_cmap).
Local Abbreviation run SAVE_FIG :=
  (run SAVE_FIG convert_RGB bar_chart boxes_chart curves_chart
     precision_recall_chart image_chart draw_bounding_boxes rasterise
     plt_cm_get_cmap).

Implicit Types (s : @State Image).

(** One call, when figures are not saved. *)
Lemma exec_without_saving (c : call) s : fst (exec false c s) = s.
Proof.
  destruct s as [cfg fs].
  destruct c; try reflexivity; simpl;
    unfold void, plot_distribution, plot_boxes, plot_training_curves,
      plot_precision_recall, visualize_predictions, show, savefig,
      mbind, Run_bind, bind, pure, reading, ret;
    simpl; repeat case_match; simplify_eq/=; reflexivity.
Qed.

(** X16.  When figures are not saved (SAVE_FIG false), no sequence of
    calls into the repository changes the state: no function writes a file
    but through the guarded [savefig] of the plotting routines. *)
Theorem nothing_saved_without_SAVE_FIG (cs : list call) s :
  run false cs s = s.
Proof.
  revert s. induction cs as [|c cs IH]; intros s; [done|].
  simpl. by rewrite exec_without_saving.
Qed.


End Plotting.

(* ===================================================================== *)
(** * The further properties on the sample data *)
(* ===================================================================== *)

Lemma two_birds_has_boxes : has_boxes Demo.two_birds.
Proof. repeat constructor; eexists; vm_compute; reflexivity. Defined.

Lemma boxes_follow_rows_witness :
  ∃ t, make_target true 0 Demo.two_birds = Ok t ∧
       boxes_are_rows Demo.two_birds t.
Proof.
  eexists. split; [vm_compute; reflexivity|].
  apply (boxes_follow_rows true 0 Demo.two_birds).
  vm_compute; reflexivity.
Defined.

Lemma target_keys_and_image_id_witness :
  ∃ t, make_target true (-2) Demo.two_birds = Ok t ∧
       dom t = target_keys ∧ t !! "image_id" = Some (Int64_1d [(-2)%Z]).
Proof.
  eexists. split; [vm_compute; reflexivity|].
  apply (target_keys_and_image_id true (-2) Demo.two_birds).
  vm_compute; reflexivity.
Defined.


(** A table in the x, y, width, height layout. *)
Lemma missing_coordinate_KeyError_witness :
  make_target true 0 Sample.xywh = Raise (KeyError "xmin").
Proof.
  apply (missing_coordinate_KeyError true 0 Sample.xywh).
  - by left.
  - discriminate.
  - reflexivity.
Defined.

Lemma getitem_returns_iff_witness :
  returns (__getitem__ Demo.convert_RGB Demo.plain Demo.fs 0).
Proof.
  apply (getitem_returns_iff Demo.convert_RGB Demo.plain Demo.fs 0).
  - reflexivity.
  - exists (Demo.Picture "L" "a"), Demo.two_birds.
    split; [by apply demo_loads_a|]. split; [discriminate|].
    split; [apply two_birds_has_boxes | by left].
Defined.

Lemma species_needs_class_id_column_witness :
  __getitem__ Demo.convert_RGB Sample.unlabelled_species Sample.unlabelled_fs 0
  = Raise (KeyError "class_id") ∧
  returns (__getitem__ Demo.convert_RGB
             (__init__ ["a.jpg"] ["u.csv"] None true) Sample.unlabelled_fs 0).
Proof.
  split.
  - apply (species_needs_class_id_column Demo.convert_RGB
             Sample.unlabelled_species Sample.unlabelled_fs 0
             (Demo.Picture "L" "a") Sample.unlabelled).
    + exists "a.jpg", "u.csv". repeat split.
    + reflexivity.
    + intros H%list_elem_of_In. simpl in H. intuition discriminate.
  - eexists. vm_compute. reflexivity.
Defined.

Lemma bird_only_result_ignores_class_ids_witness :
  __getitem__ Demo.convert_RGB Demo.plain
    (<["a.csv" := CsvFile Demo.two_birds_relabelled]> Demo.fs) 0
  = __getitem__ Demo.convert_RGB Demo.plain Demo.fs 0.
Proof.
  apply (bird_only_result_ignores_class_ids Demo.convert_RGB Demo.plain
           Demo.fs 0 "a.jpg" "a.csv" Demo.two_birds).
  - reflexivity.
  - reflexivity.
  - reflexivity.
  - discriminate.
  - reflexivity.
  - split; [reflexivity|]. repeat constructor.
Defined.

Lemma negative_index_same_item_witness :
  __getitem__ Demo.convert_RGB Demo.plain Demo.fs (-2 + 2)
  = (λ p : Demo.picture * Target,
       (p.1, <["image_id" := Int64_1d [(-2 + 2)%Z]]> p.2))
      <$> __getitem__ Demo.convert_RGB Demo.plain Demo.fs (-2).
Proof.
  apply (negative_index_same_item Demo.convert_RGB Demo.plain Demo.fs (-2)).
  - reflexivity.
  - reflexivity.
  - simpl. lia.
Defined.

(** With three annotation files for two images, index -1 pairs the last
    image, at position 1, with the last annotation, at position 2. *)
Lemma index_alignment_witness :
  ∃ i j : nat,
    _jpg_paths Sample.misaligned !! i = Some "b.jpg" ∧
    _csv_paths Sample.misaligned !! j = Some "c.csv" ∧
    ((0 ≤ -1)%Z → i = Z.to_nat (-1) ∧ j = Z.to_nat (-1)) ∧
    ((-1 < 0)%Z → (Z.of_nat i - Z.of_nat j = Z.of_nat 2 - Z.of_nat 3)%Z).
Proof.
  apply (index_alignment Sample.misaligned (-1) "b.jpg" "c.csv");
    reflexivity.
Defined.

Lemma loader_species_is_bird_only_witness :
  ∃ image target,
    __getitem__ Demo.convert_RGB
      (dataset (get_od_dataloader ["a.jpg"; "b.jpg"] ["a.csv"; "b.csv"]
                  None 1 false true)) Demo.fs 0 = Ok (image, target) ∧
    all_birds Demo.two_birds target.
Proof.
  eexists _, _. split; [vm_compute; reflexivity|].
  apply (loader_species_is_bird_only Demo.convert_RGB
           ["a.jpg"; "b.jpg"] ["a.csv"; "b.csv"] 1 false true Demo.fs 0
           (Demo.Picture "L" "a") Demo.two_birds (Demo.Picture "RGB" "a")).
  - by apply demo_loads_a.
  - vm_compute; reflexivity.
Defined.

